(** * Real-Time Global Insights Dashboard: the fetch-and-format pipeline

    A shallow embedding of [app.py]: the six data clients ([fetch_*]) and the
    callbacks of the equity, pandemic, crypto and news panels ([update_*])
    that turn their results into what a panel shows.  External calls (HTTP
    through [requests], prices through [yfinance]) are answered by a
    [World]; a call either returns a value or raises, and every call
    performed is written to a log. *)

From Stdlib Require Import ZArith NArith List String Ascii Bool Lia.
From Stdlib Require Import Floats.SpecFloat DecimalString Permutation Sorted.
Import ListNotations.

Set Warnings "-register-all".

Local Open Scope string_scope.
Local Open Scope Z_scope.

(** ** Python values *)

(** The exceptions that occur; every one of them derives from [Exception].
    [RequestError] stands for whatever the network layer raises
    (connection failure, timeout, invalid JSON text, ...). *)
Inductive exn : Type :=
| KeyError (key : string)
| IndexError
| TypeError
| ValueError
| RequestError (msg : string).

(** The outcome of evaluating a Python expression. *)
Inductive result (A : Type) : Type :=
| Ok (a : A)
| Raise (e : exn).
Arguments Ok {A} a.
Arguments Raise {A} e.

(** What [response.json()] returns: None, bool, int, float, str, list, and
    dict with string keys (dicts keep their insertion order). *)
Inductive json : Type :=
| JNull
| JBool (b : bool)
| JInt (z : Z)
| JFloat (f : spec_float)
| JStr (s : string)
| JArr (items : list json)
| JObj (fields : list (string * json)).

(** Truth value of an object, as tested by [if not data]. *)
Definition truthy (v : json) : bool :=
  match v with
  | JNull => false
  | JBool b => b
  | JInt z => negb (z =? 0)
  | JFloat (S754_zero _) => false
  | JFloat _ => true
  | JStr s => negb (s =? "")%string
  | JArr items => match items with [] => false | _ :: _ => true end
  | JObj fields => match fields with [] => false | _ :: _ => true end
  end.

Fixpoint lookup (k : string) (fields : list (string * json)) : option json :=
  match fields with
  | [] => None
  | (k', v) :: rest => if (k =? k')%string then Some v else lookup k rest
  end.

(** [v[key]] with a string key. *)
Definition getitem (v : json) (key : string) : result json :=
  match v with
  | JObj fields =>
      match lookup key fields with
      | Some x => Ok x
      | None => Raise (KeyError key)
      end
  | _ => Raise TypeError
  end.

(** [v[0]]. *)
Definition getitem0 (v : json) : result json :=
  match v with
  | JArr (x :: _) => Ok x
  | JArr [] => Raise IndexError
  | JStr (String c _) => Ok (JStr (String c ""))
  | JStr "" => Raise IndexError
  | JObj _ => Raise (KeyError "0")
  | _ => Raise TypeError
  end.

(** The items a [for] loop over [v] visits. *)
Definition iter (v : json) : result (list json) :=
  match v with
  | JArr items => Ok items
  | JObj fields => Ok (map (fun kv => JStr (fst kv)) fields)
  | JStr s => Ok (map (fun c => JStr (String c "")) (list_ascii_of_string s))
  | _ => Raise TypeError
  end.

(** ** External calls

    An f-string before it is rendered: literal text and interpolated
    values.  Requests carry their URL in this form. *)
Inductive piece : Type :=
| Lit (text : string)
| Interp (v : json).

Definition fstring : Type := list piece.

(** One point of the intraday price history: the [Datetime] column (the
    text of the pandas Timestamp) and the [Close] column. *)
Record Bar : Type := mkBar { Datetime : string; Close : spec_float }.

Inductive request : Type :=
| Get (url : fstring) (params : list (string * string))
    (* requests.get(url, params=params).json() *)
| History (ticker period interval : string).
    (* yf.Ticker(ticker).history(period=period, interval=interval) *)

(** The outside world answers each call; the answer may depend on every
    call made before (the log), so the same URL can answer differently
    over time. *)
Record World : Type := mkWorld {
  http_json : list request -> fstring -> list (string * string) -> result json;
  yf_history : list request -> string -> string -> string -> result (list Bar)
}.

(** A computation reads the world, appends to the log of performed
    requests, and returns or raises. *)
Definition M (A : Type) : Type := World -> list request -> result A * list request.

Definition ret {A} (a : A) : M A := fun _ log => (Ok a, log).

Definition bind {A B} (m : M A) (k : A -> M B) : M B :=
  fun w log =>
    match m w log with
    | (Ok a, log') => k a w log'
    | (Raise e, log') => (Raise e, log')
    end.

(** [try: body except Exception: handler]. *)
Definition try_except {A} (body : M A) (handler : M A) : M A :=
  fun w log =>
    match body w log with
    | (Ok a, log') => (Ok a, log')
    | (Raise _, log') => handler w log'
    end.

Definition lift {A} (r : result A) : M A := fun _ log => (r, log).

Definition requests_get_json (url : fstring) (params : list (string * string)) : M json :=
  fun w log => (http_json w log url params, (log ++ [Get url params])%list).

Definition ticker_history (ticker period interval : string) : M (list Bar) :=
  fun w log => (yf_history w log ticker period interval,
                (log ++ [History ticker period interval])%list).

Declare Scope py_scope.
Delimit Scope py_scope with py.
Notation "x <- m ;; k" := (bind m (fun x => k))
  (at level 61, m at next level, right associativity) : py_scope.
Local Open Scope py_scope.

(** The value a computation returns, and the requests it performed. *)
Definition value {A} (m : M A) (w : World) (log : list request) : result A :=
  fst (m w log).

Definition performed {A} (m : M A) (w : World) (log : list request) : list request :=
  snd (m w log).

(** ** Number formatting *)

Definition decimal (n : N) : string := NilZero.string_of_uint (N.to_uint n).

(** Insert a comma after every third digit; the digits come least
    significant first. *)
Fixpoint group3 (digits : list ascii) : list ascii :=
  match digits with
  | a :: b :: c :: ((_ :: _) as rest) => a :: b :: c :: ","%char :: group3 rest
  | _ => digits
  end.

Definition thousands (digits : string) : string :=
  string_of_list_ascii (rev (group3 (rev (list_ascii_of_string digits)))).

(** [format(z, ",")] for an int. *)
Definition format_comma_int (z : Z) : string :=
  (if z <? 0 then "-" else "") ++ thousands (decimal (Z.abs_N z)).

(** [n / d] rounded to the nearest integer, ties to even. *)
Definition round_half_even (n d : N) : N :=
  let q := (n / d)%N in
  let r := (n mod d)%N in
  match (2 * r ?= d)%N with
  | Lt => q
  | Gt => (q + 1)%N
  | Eq => if N.even q then q else (q + 1)%N
  end.

(** [m * 2^e * 100], correctly rounded: the hundredths of a finite float. *)
Definition hundredths (m : positive) (e : Z) : N :=
  match e with
  | Z0 => (Npos m * 100)%N
  | Zpos p => (Npos m * 2 ^ Npos p * 100)%N
  | Zneg p => round_half_even (Npos m * 100) (2 ^ Npos p)
  end.

Definition fixed2 (negative : bool) (h : N) : string :=
  (if negative then "-" else "") ++ decimal (h / 100) ++ "."
  ++ decimal (h mod 100 / 10) ++ decimal (h mod 10).

(** [format(f, ".2f")] for a float. *)
Definition format_2f (f : spec_float) : string :=
  match f with
  | S754_nan => "nan"
  | S754_infinity s => if s then "-inf" else "inf"
  | S754_zero s => fixed2 s 0
  | S754_finite s m e => fixed2 s (hundredths m e)
  end.

(** The interpreter and library behaviour this program does not fix: the
    digits of a float under [repr] and under [","], the [repr] of
    containers, what the DataFrame constructor makes of JSON that is
    neither a list of records nor a record holding one record, the value
    a frame stores in a cell whose column has gaps or mixes types other
    than int with float (given the column and the cell received), and the
    traces of a chart coloured by values that are not all strings (given
    each row's colour value and point). *)
Record Runtime : Type := mkRuntime {
  repr : json -> string;
  float_comma : spec_float -> string;
  frame_of_other : json -> result (list string * list (list (string * json)));
  cell_other : list (option json) -> option json -> json;
  traces_other : list (json * (json * json)) -> result (list (json * json))
}.

(** [f"{v}"]: [str(v)]. *)
Definition format_str (rt : Runtime) (v : json) : string :=
  match v with
  | JStr s => s
  | JNull => "None"
  | JBool b => if b then "True" else "False"
  | JInt z => (if z <? 0 then "-" else "") ++ decimal (Z.abs_N z)
  | _ => repr rt v
  end.

(** [f"{v:,}"]. *)
Definition format_comma (rt : Runtime) (v : json) : result string :=
  match v with
  | JInt z => Ok (format_comma_int z)
  | JBool b => Ok (if b then "1" else "0")
  | JFloat f => Ok (float_comma rt f)
  | JStr _ => Raise ValueError
  | _ => Raise TypeError
  end.

(** Evaluation inside an expression: the first exception wins. *)
Definition rbind {A B} (r : result A) (k : A -> result B) : result B :=
  match r with
  | Ok a => k a
  | Raise e => Raise e
  end.

(** A list comprehension [[f(item) for item in items]]. *)
Fixpoint comprehension {A B} (f : A -> result B) (items : list A) : result (list B) :=
  match items with
  | [] => Ok []
  | item :: rest =>
      rbind (f item) (fun b =>
      rbind (comprehension f rest) (fun bs => Ok (b :: bs)))
  end.

(** ** pandas, plotly and the HTML components *)

(** A row gives the cell under a column label. *)
Class Row (R : Type) : Type := cell : R -> string -> option json.

#[global] Instance Row_Bar : Row Bar := fun bar column =>
  if (column =? "Datetime")%string then Some (JStr (Datetime bar))
  else if (column =? "Close")%string then Some (JFloat (Close bar))
  else None.

#[global] Instance Row_record : Row (list (string * json)) := fun record column =>
  lookup column record.

Module pd.

Record DataFrame (R : Type) : Type := mk { columns : list string; rows : list R }.
Arguments mk {R} columns rows.
Arguments columns {R} d.
Arguments rows {R} d.

(** [pd.DataFrame()]. *)
Definition DataFrame_ {R} : DataFrame R := mk [] [].

(** [df.empty]: some axis has length zero. *)
Definition empty {R} (df : DataFrame R) : bool :=
  match rows df, columns df with
  | [], _ => true
  | _, [] => true
  | _ :: _, _ :: _ => false
  end.

(** [df.reset_index()] on the price history: the Datetime index becomes
    a column.  Of the price columns only Close is kept, the program
    reads no other. *)
Definition reset_index (history : list Bar) : DataFrame Bar :=
  mk ["Datetime"; "Close"] history.

(** [df.iloc[-1]]. *)
Definition iloc_last {R} (df : DataFrame R) : result R :=
  match rev (rows df) with
  | latest :: _ => Ok latest
  | [] => Raise IndexError
  end.

Fixpoint records (items : list json) : option (list (list (string * json))) :=
  match items with
  | [] => Some []
  | JObj fields :: rest => option_map (cons fields) (records rest)
  | _ :: _ => None
  end.

Definition add_key (acc : list string) (kv : string * json) : list string :=
  if existsb (String.eqb (fst kv)) acc then acc else (acc ++ [fst kv])%list.

(** Column labels of a list of records: the keys in order of first
    appearance. *)
Fixpoint union_keys (seen : list string) (recs : list (list (string * json))) : list string :=
  match recs with
  | [] => seen
  | fields :: rest => union_keys (fold_left add_key fields seen) rest
  end.

(** The values an int64 column holds. *)
Definition int64 (z : Z) : bool :=
  (-9223372036854775808 <=? z) && (z <=? 9223372036854775807).

(** The binary64 nearest to a positive integer, ties to even, with the
    given sign: the mantissa has 53 bits. *)
Definition float_of_pos (s : bool) (p : positive) : spec_float :=
  let bits := Z.pos (Pos.size p) in
  if bits <=? 53 then S754_finite s (Z.to_pos (Z.pos p * 2 ^ (53 - bits))) (bits - 53)
  else
    match round_half_even (Npos p) (2 ^ Z.to_N (bits - 53)) with
    | N0 => S754_zero s
    | Npos q =>
        if (q =? 2 ^ 53)%positive then S754_finite s (2 ^ 52)%positive (bits - 52)
        else S754_finite s q (bits - 53)
    end.

(** An int converted to float64. *)
Definition float_of_int (z : Z) : spec_float :=
  match z with
  | Z0 => S754_zero false
  | Zpos p => float_of_pos false p
  | Zneg p => float_of_pos true p
  end.

Definition to_float64 (v : json) : json :=
  match v with
  | JInt z => JFloat (float_of_int z)
  | _ => v
  end.

(** The type a column is given: all cells strings, all cells ints that
    fit int64, or all cells numbers (ints that fit int64, and floats). *)
Definition all_str (column : list (option json)) : bool :=
  forallb (fun v => match v with Some (JStr _) => true | _ => false end) column.

Definition all_int64 (column : list (option json)) : bool :=
  forallb (fun v => match v with Some (JInt z) => int64 z | _ => false end) column.

Definition all_number (column : list (option json)) : bool :=
  forallb (fun v => match v with
                    | Some (JInt z) => int64 z
                    | Some (JFloat _) => true
                    | _ => false
                    end) column.

(** The value the frame stores in a cell, by the cells of its column: a
    column of strings or of ints keeps what it received, a column that
    mixes ints and floats is float64 and converts its ints. *)
Definition stored (rt : Runtime) (column : list (option json)) (v : option json) : json :=
  match v with
  | Some x =>
      if all_str column || all_int64 column then x
      else if all_number column then to_float64 x
      else cell_other rt column v
  | None => cell_other rt column v
  end.

(** The frame of a list of records: one row per record, one column per
    key. *)
Definition of_records (rt : Runtime) (recs : list (list (string * json)))
    : DataFrame (list (string * json)) :=
  let cols := union_keys [] recs in
  mk cols
     (map (fun r => map (fun c => (c, stored rt (map (lookup c) recs) (lookup c r))) cols)
          recs).

(** [pd.DataFrame(data)] on a parsed JSON body.  A record holding one
    record gives one column, with a row per key of the inner record. *)
Definition DataFrame_of (rt : Runtime) (data : json) : result (DataFrame (list (string * json))) :=
  let other :=
    match frame_of_other rt data with
    | Ok (cols, recs) => Ok (mk cols recs)
    | Raise e => Raise e
    end in
  match data with
  | JNull => Ok DataFrame_
  | JArr [] => Ok DataFrame_
  | JArr items =>
      match records items with
      | Some recs => Ok (of_records rt recs)
      | None => other
      end
  | JObj [(k, JObj inner)] =>
      let column := map (fun kv => Some (snd kv)) inner in
      Ok (mk [k] (map (fun kv => [(k, stored rt column (Some (snd kv)))]) inner))
  | _ => other
  end.

(** Descending order of floats with NaN last: does [a] go before [b]? *)
Definition before_desc (a b : spec_float) : bool :=
  match a, b with
  | _, S754_nan => true
  | S754_nan, _ => false
  | _, _ => match SFcompare a b with Some Lt => false | _ => true end
  end.

Fixpoint insert_desc {R} (key : R -> spec_float) (x : R) (sorted : list R) : list R :=
  match sorted with
  | [] => [x]
  | y :: rest =>
      if before_desc (key x) (key y) then x :: y :: rest
      else y :: insert_desc key x rest
  end.

(** [df.sort_values(by, ascending=False)]; [key] reads the [by] column.
    Rows with equal keys keep their order. *)
Definition sort_values_desc {R} (key : R -> spec_float) (df : DataFrame R) : DataFrame R :=
  mk (columns df) (fold_right (insert_desc key) [] (rows df)).

End pd.

Module go.

Inductive chart : Type := Line | Bars.

(** A figure: its points (x, y), trace after trace, and the layout and
    trace settings the program touches. *)
Record Figure : Type := mk {
  chart_type : option chart;
  data : list (json * json);
  title : option string;
  template : option string;
  margin : option (Z * Z * Z * Z);
  texttemplate : option string;
  textposition : option string
}.

(** [go.Figure()]. *)
Definition Figure_ : Figure := mk None [] None None None None None.

Definition update_layout_title (fig : Figure) (t tpl : string) : Figure :=
  mk (chart_type fig) (data fig) (Some t) (Some tpl) (margin fig)
     (texttemplate fig) (textposition fig).

Definition update_layout_margin (fig : Figure) (l r t b : Z) : Figure :=
  mk (chart_type fig) (data fig) (title fig) (template fig) (Some (l, r, t, b))
     (texttemplate fig) (textposition fig).

Definition update_traces (fig : Figure) (tt tp : string) : Figure :=
  mk (chart_type fig) (data fig) (title fig) (template fig) (margin fig)
     (Some tt) (Some tp).

End go.

Module px.

Definition has_column {R} (df : pd.DataFrame R) (column : string) : bool :=
  existsb (String.eqb column) (pd.columns df).

(** The cell of a row under a column of the frame; a record that lacks
    the key holds NaN there. *)
Definition at_ {R} `{Row R} (row : R) (column : string) : json :=
  match cell row column with
  | Some v => v
  | None => JFloat S754_nan
  end.

(** A chart without colour: one trace of all rows, in frame order. *)
Definition plot {R} `{Row R} (kind : go.chart) (df : pd.DataFrame R)
    (x y : string) (others : list string) (title : option string) (template : string)
    : result go.Figure :=
  if forallb (has_column df) (x :: y :: others) then
    Ok (go.mk (Some kind) (map (fun row => (at_ row x, at_ row y)) (pd.rows df))
              title (Some template) None None None)
  else Raise ValueError.

(** [px.line(df, x=, y=, title=, template=, markers=True)]. *)
Definition line {R} `{Row R} (df : pd.DataFrame R) (x y title template : string) :=
  plot go.Line df x y [] (Some title) template.

Definition strings (values : list json) : option (list string) :=
  fold_right (fun v acc =>
                match v, acc with
                | JStr s, Some names => Some (s :: names)
                | _, _ => None
                end) (Some []) values.

Definition add_name (acc : list string) (name : string) : list string :=
  if existsb (String.eqb name) acc then acc else (acc ++ [name])%list.

(** The distinct names, in order of first appearance. *)
Definition distinct (names : list string) : list string :=
  fold_left add_name names [].

(** One trace per distinct name, in order of first appearance; a trace
    holds the points of the rows with its name, in frame order. *)
Definition by_name {P : Type} (named : list (string * P)) : list P :=
  flat_map (fun name =>
              map snd (filter (fun np => (fst np =? name)%string) named))
           (distinct (map fst named)).

Definition traces (rt : Runtime) (coloured : list (json * (json * json)))
    : result (list (json * json)) :=
  match strings (map fst coloured) with
  | Some names => Ok (by_name (combine names (map snd coloured)))
  | None => traces_other rt coloured
  end.

(** A chart coloured by a column: the columns are checked as for [plot],
    then the rows are split into traces by their colour value. *)
Definition plot_by {R} `{Row R} (rt : Runtime) (kind : go.chart) (df : pd.DataFrame R)
    (x y color : string) (others : list string) (title : option string)
    (template : string) : result go.Figure :=
  rbind (plot kind df x y (color :: others) title template) (fun fig =>
  rbind (traces rt (map (fun row => (at_ row color, (at_ row x, at_ row y)))
                        (pd.rows df))) (fun points =>
  Ok (go.mk (go.chart_type fig) points (go.title fig) (go.template fig)
            (go.margin fig) (go.texttemplate fig) (go.textposition fig)))).

(** [px.bar(df, x=, y=, color=, title=, text=, template=)]. *)
Definition bar {R} `{Row R} (rt : Runtime) (df : pd.DataFrame R)
    (x y color title text template : string) :=
  plot_by rt go.Bars df x y color [text] (Some title) template.

End px.

Module html.

Inductive component : Type :=
| P (children : string) (className : option string)
| A (children href : json) (target className : string)
| Div (children : list component) (className : option string).

End html.

(** What a callback hands to a [children] property: one component or a
    list of them. *)
Inductive children : Type :=
| One (c : html.component)
| Many (cs : list html.component).

(** ** Helper functions: the data clients *)

(** The URLs and query parameters of the five endpoints. *)
Definition covid_url (country : string) : fstring :=
  [Lit "https://disease.sh/v3/covid-19/countries/"; Interp (JStr country);
   Lit "?strict=true"].

Definition geocoding_url (city : string) : fstring :=
  [Lit "https://geocoding-api.open-meteo.com/v1/search?name="; Interp (JStr city);
   Lit "&count=1"].

Definition forecast_url (lat lon : json) : fstring :=
  [Lit "https://api.open-meteo.com/v1/forecast?latitude="; Interp lat;
   Lit "&longitude="; Interp lon; Lit "&current_weather=true"].

Definition crypto_url : fstring :=
  [Lit "https://api.coingecko.com/api/v3/coins/markets"].

Definition crypto_params : list (string * string) :=
  [("vs_currency", "usd"); ("ids", "bitcoin,ethereum,solana,dogecoin")].

Definition news_url : fstring :=
  [Lit "https://hn.algolia.com/api/v1/search?query=technology&tags=story&hitsPerPage=5"].

(** Fetch live stock data from Yahoo Finance. *)
Definition fetch_stock_data (ticker : string) : M (pd.DataFrame Bar) :=
  try_except
    (df <- ticker_history ticker "1d" "5m" ;;
     let df := pd.reset_index df in
     ret df)
    (ret pd.DataFrame_).

(** Fetch COVID-19 stats by country. *)
Definition fetch_covid_data (country : string) : M json :=
  try_except
    (let url := covid_url country in
     data <- requests_get_json url [] ;;
     ret data)
    (ret JNull).

(** Fetch live weather info by city. *)
Definition fetch_weather (city : string) : M json :=
  try_except
    (geo <- requests_get_json (geocoding_url city) [] ;;
     lat <- lift (rbind (rbind (getitem geo "results") getitem0)
                        (fun r => getitem r "latitude")) ;;
     lon <- lift (rbind (rbind (getitem geo "results") getitem0)
                        (fun r => getitem r "longitude")) ;;
     weather <- requests_get_json (forecast_url lat lon) [] ;;
     lift (getitem weather "current_weather"))
    (ret JNull).

(** Fetch top crypto prices. *)
Definition fetch_crypto_data (rt : Runtime) : M (pd.DataFrame (list (string * json))) :=
  try_except
    (let url := crypto_url in
     let params := crypto_params in
     data <- requests_get_json url params ;;
     lift (pd.DataFrame_of rt data))
    (ret pd.DataFrame_).

(** The float literals of the table, as binary64 values:
    3.1 = 0x1.8cccccccccccdp+1, 2.8 = 0x1.6666666666666p+1,
    1.9 = 0x1.e666666666666p+0, 2.0 = 0x1.0p+1, 2.3 = 0x1.2666666666666p+1,
    1.3 = 0x1.4cccccccccccdp+0, 0.9 = 0x1.ccccccccccccdp-1,
    0.6 = 0x1.3333333333333p-1. *)
Definition companies : list (string * spec_float) :=
  [("Apple", S754_finite false 6980579422424269 (-51));
   ("Microsoft", S754_finite false 6305039478318694 (-51));
   ("Amazon", S754_finite false 8556839292003942 (-52));
   ("Google", S754_finite false 4503599627370496 (-51));
   ("NVIDIA", S754_finite false 5179139571476070 (-51));
   ("Meta", S754_finite false 5854679515581645 (-52));
   ("Tesla", S754_finite false 8106479329266893 (-53));
   ("Samsung", S754_finite false 5404319552844595 (-53))].

(** Static global market caps for big tech companies. *)
Definition fetch_market_caps : M (pd.DataFrame (string * spec_float)) :=
  let df := pd.mk ["Company"; "MarketCap"] companies in
  ret (pd.sort_values_desc snd df).

(** Fetch latest tech news headlines. *)
Definition fetch_tech_news : M (list (json * json)) :=
  try_except
    (let url := news_url in
     data <- requests_get_json url [] ;;
     lift (rbind (rbind (getitem data "hits") iter)
                 (comprehension (fun item =>
                    rbind (getitem item "title") (fun title =>
                    rbind (getitem item "url") (fun url =>
                    Ok (title, url)))))))
    (ret []).

(** ** Callbacks *)

Definition update_stock (n_clicks : option Z) (n_intervals : Z) (ticker : string)
    : M (go.Figure * string) :=
  df <- fetch_stock_data ticker ;;
  if pd.empty df then
    let fig := go.Figure_ in
    let fig := go.update_layout_title fig "No Stock Data Found" "plotly_dark" in
    ret (fig, "No data for " ++ ticker)
  else
    fig <- lift (px.line df "Datetime" "Close" (ticker ++ " Live Price") "plotly_dark") ;;
    let fig := go.update_layout_margin fig 20 20 40 20 in
    latest <- lift (pd.iloc_last df) ;;
    ret (fig, "Last Updated: " ++ Datetime latest ++ " | Price: $"
              ++ format_2f (Close latest)).

Definition update_covid (rt : Runtime) (n_clicks : option Z) (n_intervals : Z)
    (country : string) : M html.component :=
  data <- fetch_covid_data country ;;
  if negb (truthy data) then
    ret (html.P "⚠️ No data available." (Some "warning"))
  else
    lift (rbind (getitem data "country") (fun c =>
          let line1 := html.P ("Country: " ++ format_str rt c) None in
          rbind (rbind (getitem data "cases") (format_comma rt)) (fun cases =>
          let line2 := html.P ("Cases: " ++ cases) None in
          rbind (rbind (getitem data "active") (format_comma rt)) (fun active =>
          let line3 := html.P ("Active: " ++ active) None in
          rbind (rbind (getitem data "recovered") (format_comma rt)) (fun recovered =>
          let line4 := html.P ("Recovered: " ++ recovered) None in
          rbind (rbind (getitem data "deaths") (format_comma rt)) (fun deaths =>
          let line5 := html.P ("Deaths: " ++ deaths) None in
          Ok (html.Div [line1; line2; line3; line4; line5] None))))))).

Definition update_crypto (rt : Runtime) (n : Z) : M go.Figure :=
  df <- fetch_crypto_data rt ;;
  if pd.empty df then
    ret go.Figure_
  else
    fig <- lift (px.bar rt df "name" "current_price" "name" "Top Cryptos (USD)"
                        "current_price" "plotly_dark") ;;
    let fig := go.update_traces fig "$%{text}" "outside" in
    let fig := go.update_layout_margin fig 20 20 40 20 in
    ret fig.

Definition update_news (n : Z) : M children :=
  news <- fetch_tech_news ;;
  match news with
  | [] => ret (One (html.P "⚠️ No latest news available." (Some "warning")))
  | _ :: _ =>
      ret (Many (map (fun '(title, link) =>
                        html.Div [html.A title link "_blank" "news-link"]
                                 (Some "news-item"))
                     news))
  end.

(** ** Vocabulary of the properties *)

(** The (title, url) pairs of a response body, as the comprehension of
    [fetch_tech_news] builds them. *)
Definition headlines (data : json) : result (list (json * json)) :=
  rbind (rbind (getitem data "hits") iter)
        (comprehension (fun item =>
           rbind (getitem item "title") (fun title =>
           rbind (getitem item "url") (fun url => Ok (title, url))))).

(** The coordinates [fetch_weather] reads off a geocoding body. *)
Definition coordinates (geo : json) : result (json * json) :=
  rbind (rbind (rbind (getitem geo "results") getitem0)
               (fun r => getitem r "latitude")) (fun lat =>
  rbind (rbind (rbind (getitem geo "results") getitem0)
               (fun r => getitem r "longitude")) (fun lon =>
  Ok (lat, lon))).

(** A geocoding body with no match: the [results] list is empty or, as
    the service sends it, left out. *)
Definition zero_results (geo : json) : Prop :=
  exists fields, geo = JObj fields /\
    (lookup "results" fields = None \/ lookup "results" fields = Some (JArr [])).

(** The current conditions a forecast answer carries. *)
Definition current_weather (answer : result json) : result json :=
  rbind answer (fun weather => getitem weather "current_weather").

Definition is_digit (c : ascii) : Prop :=
  (48 <= nat_of_ascii c <= 57)%nat.

Definition all_digits (s : string) : Prop :=
  Forall is_digit (list_ascii_of_string s).

(** Fixed-point text with exactly two decimal places: an optional minus
    sign, at least one digit, a point, two digits. *)
Definition two_decimals (s : string) : Prop :=
  exists sign whole d1 d2,
    s = sign ++ whole ++ "." ++ String d1 (String d2 "")
    /\ (sign = "" \/ sign = "-") /\ whole <> "" /\ all_digits whole
    /\ is_digit d1 /\ is_digit d2.

(** The text with its commas taken out. *)
Definition strip_commas (s : string) : string :=
  string_of_list_ascii
    (filter (fun c => negb (Ascii.eqb c ","%char)) (list_ascii_of_string s)).

(** A float that is a number: neither NaN nor an infinity. *)
Definition finite (f : spec_float) : bool :=
  match f with
  | S754_zero _ | S754_finite _ _ _ => true
  | S754_infinity _ | S754_nan => false
  end.

(** The fixed messages of the panels. *)
Definition no_covid_data : html.component :=
  html.P "⚠️ No data available." (Some "warning").

Definition no_news : children :=
  One (html.P "⚠️ No latest news available." (Some "warning")).

(** One news item of the panel. *)
Definition news_item (headline : json * json) : html.component :=
  html.Div [html.A (fst headline) (snd headline) "_blank" "news-link"]
           (Some "news-item").

(** A hit that has no title or no url. *)
Definition incomplete_hit (hit : json) : Prop :=
  exists fields, hit = JObj fields /\
    (lookup "title" fields = None \/ lookup "url" fields = None).

(** A coin of the markets response: a record with a name and a price. *)
Definition coin (name : string) (price : json) (more : list (string * json)) : json :=
  JObj (("name", JStr name) :: ("current_price", price) :: more).

(** A JSON number that is not below zero. *)
Definition nonnegative (price : json) : bool :=
  match price with
  | JInt z => 0 <=? z
  | JFloat (S754_zero _) => true
  | JFloat (S754_finite s _ _) | JFloat (S754_infinity s) => negb s
  | _ => false
  end.

(** The body the pandemic endpoint sends for a country it does not know. *)
Definition country_not_found : json :=
  JObj [("message", JStr "Country not found or doesn't have any cases")].

(** The record of the end-to-end example. *)
Definition india_stats : json :=
  JObj [("country", JStr "India"); ("cases", JInt 1000); ("active", JInt 100);
        ("recovered", JInt 880); ("deaths", JInt 20)].

(** The market-cap table in the order the client returns it. *)
Definition market_caps_sorted : list (string * spec_float) :=
  [("Apple", S754_finite false 6980579422424269 (-51));
   ("Microsoft", S754_finite false 6305039478318694 (-51));
   ("NVIDIA", S754_finite false 5179139571476070 (-51));
   ("Google", S754_finite false 4503599627370496 (-51));
   ("Amazon", S754_finite false 8556839292003942 (-52));
   ("Meta", S754_finite false 5854679515581645 (-52));
   ("Tesla", S754_finite false 8106479329266893 (-53));
   ("Samsung", S754_finite false 5404319552844595 (-53))].

(** The order [sort_values] leaves the rows in. *)
Definition desc_by {R} (key : R -> spec_float) (x y : R) : Prop :=
  pd.before_desc (key x) (key y) = true.

(** Descending by market cap: each row's cap is at least the next one's. *)
Definition cap_ge (a b : string * spec_float) : Prop :=
  SFleb (snd b) (snd a) = true.

(** The computation returns normally, and with the sentinel when the
    external call failed. *)
Definition returns_or {A} (m : M A) (w : World) (log : list request)
    (failure : Prop) (sentinel : A) : Prop :=
  exists a, value m w log = Ok a /\ (failure -> a = sentinel).

(** ** Worlds used in examples *)

(** Every HTTP call and every price query gets the same fixed answer. *)
Definition mock (body : result json) (prices : result (list Bar)) : World :=
  mkWorld (fun _ _ _ => body) (fun _ _ _ _ => prices).

(** No network: every external call raises. *)
Definition offline : World :=
  mock (Raise (RequestError "connection refused"))
       (Raise (RequestError "connection refused")).

(** The price service answers with a single bar whose close is NaN. *)
Definition nan_quote : World :=
  mock (Raise (RequestError "unused"))
       (Ok [mkBar "2025-01-02 15:55:00-05:00" S754_nan]).

(** The figure of the equity panel when there is no data. *)
Definition no_stock_figure : go.Figure :=
  go.update_layout_title go.Figure_ "No Stock Data Found" "plotly_dark".

(** A markets response of four coins, one of them with a price below zero. *)
Definition negative_coins : json :=
  JArr [coin "Bitcoin" (JInt 50000) []; coin "Ethereum" (JInt 3000) [];
        coin "Solana" (JInt 150) []; coin "Dogecoin" (JInt (-1)) []].

(** The body the markets endpoint sends when it refuses a request. *)
Definition rate_limited : json :=
  JObj [("status", JObj [("error_code", JInt 429);
                         ("error_message", JStr "You've exceeded the Rate Limit.")])].

(** A price that is a number: an int that fits int64, or a float. *)
Definition numeric (price : json) : bool :=
  match price with
  | JInt z => pd.int64 z
  | JFloat _ => true
  | _ => false
  end.

Definition is_int (price : json) : bool :=
  match price with JInt _ => true | _ => false end.

(** The price a bar shows, among the prices of the response: as received
    when all prices are ints, and as a float otherwise (an int then
    becomes the nearest float). *)
Definition shown_price (prices : list json) (price : json) : json :=
  if forallb is_int prices then price else pd.to_float64 price.

(** The record and the bar of a coin given by name, price and the other
    fields. *)
Definition coin_of (c : string * json * list (string * json)) : json :=
  coin (fst (fst c)) (snd (fst c)) (snd c).

Definition bar_of (c : string * json * list (string * json)) : json * json :=
  (JStr (fst (fst c)), snd (fst c)).

(** The fields of a coin's record. *)
Definition fields_of (c : string * json * list (string * json)) : list (string * json) :=
  ("name", JStr (fst (fst c))) :: ("current_price", snd (fst c)) :: snd c.

(** The bar of a coin among the coins of a response. *)
Definition shown_bar (coins : list (string * json * list (string * json)))
    (c : string * json * list (string * json)) : json * json :=
  (JStr (fst (fst c)), shown_price (map (fun c' => snd (fst c')) coins) (snd (fst c))).

(** A runtime whose unspecified parts are constant. *)
Definition plain_runtime : Runtime :=
  mkRuntime (fun _ => "?") (fun _ => "?") (fun _ => Raise ValueError)
            (fun _ _ => JNull) (fun _ => Raise ValueError).

(** ** The weather and market-cap callbacks *)

#[global] Instance Row_company : Row (string * spec_float) := fun row column =>
  if (column =? "Company")%string then Some (JStr (fst row))
  else if (column =? "MarketCap")%string then Some (JFloat (snd row))
  else None.

Definition update_weather (rt : Runtime) (n_clicks : option Z) (n_intervals : Z)
    (city : string) : M html.component :=
  data <- fetch_weather city ;;
  if negb (truthy data) then
    ret (html.P "⚠️ No weather data available." (Some "warning"))
  else
    lift (rbind (getitem data "temperature") (fun temperature =>
          let line1 := html.P ("Temperature: " ++ format_str rt temperature ++ "°C") None in
          rbind (getitem data "windspeed") (fun windspeed =>
          let line2 := html.P ("Windspeed: " ++ format_str rt windspeed ++ " m/s") None in
          rbind (getitem data "time") (fun time =>
          let line3 := html.P ("Time: " ++ format_str rt time) None in
          Ok (html.Div [line1; line2; line3] None))))).

(** The outline of the bars: [marker_line_color] and [marker_line_width]
    (1.5 = 0x1.8p+0). *)
Record marker_line : Type := mkMarkerLine {
  marker_line_color : string;
  marker_line_width : spec_float
}.

Definition update_marketcap (rt : Runtime) (n : Z) : M (go.Figure * marker_line) :=
  df <- fetch_market_caps ;;
  fig <- lift (px.plot_by rt go.Bars df "Company" "MarketCap" "Company" [] None
                          "plotly_dark") ;;
  let fig := (fig, mkMarkerLine "#00ffff" (S754_finite false 6755399441055744 (-52))) in
  ret fig.

(** ** The page and the callback wiring *)

(** A component of the layout: its name, its keyword properties, and its
    children (components or text). *)
Inductive node : Type :=
| Text (s : string)
| Node (component : string) (props : list (string * json)) (children : list node).

Definition className (c : string) : string * json := ("className", JStr c).

Definition id_ (i : string) : string * json := ("id", JStr i).

Definition card (children : list node) : node :=
  Node "html.Div" [className "card glass"] children.

Definition card_title (text : string) : node :=
  Node "html.H2" [className "card-title"] [Text text].

Definition Loading (child : node) : node :=
  Node "dcc.Loading" [("type", JStr "circle"); ("color", JStr "#00ffff")] [child].

Definition Interval (i : string) (interval : Z) : node :=
  Node "dcc.Interval" [id_ i; ("interval", JInt interval); ("n_intervals", JInt 0)] [].

Definition input_row (i value placeholder button_text button_id : string) : node :=
  Node "html.Div" [className "input-row"]
    [Node "dcc.Input" [id_ i; ("type", JStr "text"); ("value", JStr value);
                       ("placeholder", JStr placeholder); className "input-box"] [];
     Node "html.Button" [id_ button_id; className "button"] [Text button_text]].

Definition layout : node :=
  Node "html.Div" [className "main-container"]
    [Node "html.H1" [className "main-title"]
       [Text "🌐 Real-Time Global Insights Dashboard"];
     Node "html.P" [className "subtitle"]
       [Text "Stay updated with live stocks, crypto, weather, and more — beautifully visualized."];
     (* Stock Section *)
     card [card_title "📈 Live Stock Prices";
           input_row "stock-ticker" "AAPL" "Enter Stock Symbol" "Load" "load-stock";
           Loading (Node "dcc.Graph" [id_ "stock-graph"] []);
           Node "html.Div" [id_ "stock-info"; className "info-text"] [];
           Interval "stock-interval" 60000];
     (* COVID Section *)
     card [card_title "🦠 COVID-19 Stats";
           input_row "country" "India" "Enter Country" "Fetch" "load-covid";
           Loading (Node "html.Div" [id_ "covid-info"; className "info-text"] []);
           Interval "covid-interval" 120000];
     (* Weather Section *)
     card [card_title "🌤 Weather Updates";
           input_row "city" "New Delhi" "Enter City" "Check" "load-weather";
           Loading (Node "html.Div" [id_ "weather-info"; className "info-text"] []);
           Interval "weather-interval" 180000];
     (* Crypto Section *)
     card [card_title "💰 Cryptocurrency Tracker";
           Loading (Node "dcc.Graph" [id_ "crypto-graph"] []);
           Interval "crypto-interval" 60000];
     (* Market Cap Section *)
     card [card_title "🏦 Global Tech Company Market Caps (Trillions USD)";
           Node "dcc.Graph" [id_ "marketcap-graph"] []];
     (* News Feed *)
     card [card_title "📰 Latest Tech News";
           Node "html.Div" [id_ "news-feed"; className "news-section"] [];
           Interval "news-interval" 300000];
     Node "html.Footer" [className "footer"]
       [Text "© 2025 Real-Time Dashboard by Nitika Niti"]].

(** A reference to a property of a component: (id, property). *)
Definition ref : Type := (string * string)%type.

(** An [@app.callback] registration: the decorated function with the number
    of its parameters and of the values it returns, and the decorator's
    arguments. *)
Record callback : Type := mkCallback {
  handler : string;
  parameters : nat;
  returned : nat;
  outputs : list ref;
  inputs : list ref;
  states : list ref;
  prevent_initial_call : option bool
}.

Definition callbacks : list callback :=
  [mkCallback "update_stock" 3 2
     [("stock-graph", "figure"); ("stock-info", "children")]
     [("load-stock", "n_clicks"); ("stock-interval", "n_intervals")]
     [("stock-ticker", "value")] (Some false);
   mkCallback "update_covid" 3 1
     [("covid-info", "children")]
     [("load-covid", "n_clicks"); ("covid-interval", "n_intervals")]
     [("country", "value")] (Some false);
   mkCallback "update_weather" 3 1
     [("weather-info", "children")]
     [("load-weather", "n_clicks"); ("weather-interval", "n_intervals")]
     [("city", "value")] (Some false);
   mkCallback "update_crypto" 1 1
     [("crypto-graph", "figure")]
     [("crypto-interval", "n_intervals")] [] (Some false);
   mkCallback "update_marketcap" 1 1
     [("marketcap-graph", "figure")]
     [("crypto-interval", "n_intervals")] [] None;
   mkCallback "update_news" 1 1
     [("news-feed", "children")]
     [("news-interval", "n_intervals")] [] (Some false)].

(** The components of a layout that carry an id, with their names, in
    document order. *)
Fixpoint identified (n : node) : list (string * string) :=
  match n with
  | Text _ => []
  | Node component props children =>
      (match lookup "id" props with
       | Some (JStr i) => [(i, component)]
       | _ => []
       end ++ flat_map identified children)%list
  end.

(** The component that carries an id, if any. *)
Fixpoint component_of (i : string) (ids : list (string * string)) : option string :=
  match ids with
  | [] => None
  | (i', component) :: rest =>
      if (i =? i')%string then Some component else component_of i rest
  end.

(** The properties the program reads or writes, by component. *)
Definition offers (component property : string) : bool :=
  if (component =? "dcc.Graph")%string then (property =? "figure")%string
  else if (component =? "html.Div")%string then (property =? "children")%string
  else if (component =? "html.Button")%string then (property =? "n_clicks")%string
  else if (component =? "dcc.Interval")%string then (property =? "n_intervals")%string
  else if (component =? "dcc.Input")%string then (property =? "value")%string
  else false.

(** A reference that points to a component of the page which has that
    property. *)
Definition resolves (r : ref) : Prop :=
  exists component,
    component_of (fst r) (identified layout) = Some component
    /\ offers component (snd r) = true.

(** All references of a callback. *)
Definition references (cb : callback) : list ref :=
  (outputs cb ++ inputs cb ++ states cb)%list.

(** The role a component of the page plays for the callbacks: a graph or
    an identified container is written, a button or a timer triggers, a
    text field is read. *)
Definition role (component : string) : callback -> list ref :=
  if (component =? "dcc.Input")%string then states
  else if ((component =? "html.Button") || (component =? "dcc.Interval"))%string
       then inputs
  else outputs.

(** Is the component with this id used in that role by some callback? *)
Definition used (i : string) (as_ : callback -> list ref) : bool :=
  existsb (fun cb => existsb (fun r => (fst r =? i)%string) (as_ cb)) callbacks.

(** ** More worlds for examples *)

(** The geocoding call is answered with [geo], the call after it with
    [forecast]. *)
Definition two_step (geo forecast : result json) : World :=
  mkWorld (fun log _ _ => match log with [] => geo | _ :: _ => forecast end)
          (fun _ _ _ _ => Raise (RequestError "unused")).

Definition delhi_geo : json :=
  JObj [("results", JArr [JObj [("name", JStr "Delhi"); ("latitude", JInt 28);
                                ("longitude", JInt 77)]])].

Definition delhi_now : json :=
  JObj [("temperature", JInt 31); ("windspeed", JInt 7);
        ("time", JStr "2025-06-01T12:00")].

(** ** Properties of the data clients *)

Ltac run :=
  unfold value, performed, try_except, bind, ret, lift, requests_get_json,
    ticker_history; cbn [fst snd].

Section Clients.

Variables (rt : Runtime) (w : World) (log : list request).

Lemma fetch_stock_data_run (ticker : string) :
  fetch_stock_data ticker w log =
  (Ok match yf_history w log ticker "1d" "5m" with
      | Ok bars => pd.reset_index bars
      | Raise _ => pd.DataFrame_
      end,
   (log ++ [History ticker "1d" "5m"])%list).
Proof.
  unfold fetch_stock_data; run.
  destruct (yf_history w log ticker "1d" "5m"); reflexivity.
Qed.

Lemma fetch_covid_data_run (country : string) :
  fetch_covid_data country w log =
  (Ok match http_json w log (covid_url country) [] with
      | Ok data => data
      | Raise _ => JNull
      end,
   (log ++ [Get (covid_url country) []])%list).
Proof.
  unfold fetch_covid_data; run.
  destruct (http_json w log (covid_url country) []); reflexivity.
Qed.

Lemma fetch_crypto_data_run :
  fetch_crypto_data rt w log =
  (Ok match rbind (http_json w log crypto_url crypto_params) (pd.DataFrame_of rt) with
      | Ok df => df
      | Raise _ => pd.DataFrame_
      end,
   (log ++ [Get crypto_url crypto_params])%list).
Proof.
  unfold fetch_crypto_data; run.
  destruct (http_json w log crypto_url crypto_params) as [data|e]; cbn; [|reflexivity].
  destruct (pd.DataFrame_of rt data); reflexivity.
Qed.

Lemma fetch_tech_news_run :
  fetch_tech_news w log =
  (Ok match rbind (http_json w log news_url []) headlines with
      | Ok news => news
      | Raise _ => []
      end,
   (log ++ [Get news_url []])%list).
Proof.
  unfold fetch_tech_news; run.
  destruct (http_json w log news_url []) as [data|e]; cbn; [|reflexivity].
  fold (headlines data). destruct (headlines data); reflexivity.
Qed.

End Clients.

Section Weather.

Variables (w : World) (log : list request) (city : string).

(** What [fetch_weather] does, by the answer of the geocoding call and
    then of the forecast call. *)
Lemma fetch_weather_run :
  fetch_weather city w log =
  match rbind (http_json w log (geocoding_url city) []) coordinates with
  | Raise _ => (Ok JNull, (log ++ [Get (geocoding_url city) []])%list)
  | Ok (lat, lon) =>
      (Ok match current_weather
                  (http_json w (log ++ [Get (geocoding_url city) []])%list
                             (forecast_url lat lon) []) with
          | Ok conditions => conditions
          | Raise _ => JNull
          end,
       ((log ++ [Get (geocoding_url city) []]) ++ [Get (forecast_url lat lon) []])%list)
  end.
Proof.
  unfold fetch_weather, current_weather; run.
  destruct (http_json w log (geocoding_url city) []) as [geo|e]; cbn; [|reflexivity].
  unfold coordinates.
  destruct (rbind (rbind (getitem geo "results") getitem0)
                  (fun r => getitem r "latitude")) as [lat|e]; cbn; [|reflexivity].
  destruct (rbind (rbind (getitem geo "results") getitem0)
                  (fun r => getitem r "longitude")) as [lon|e]; cbn; [|reflexivity].
  destruct (http_json w _ (forecast_url lat lon) []) as [weather|e]; cbn; [|reflexivity].
  destruct (getitem weather "current_weather"); reflexivity.
Qed.

Lemma zero_results_no_coordinates (geo : json) :
  zero_results geo -> exists e, coordinates geo = Raise e.
Proof.
  intros (fields & -> & [H|H]); unfold coordinates; cbn; rewrite H; cbn; eauto.
Qed.

End Weather.

(** C2. Each of the six data clients returns normally whatever the external
    call does, and returns its sentinel (empty DataFrame, None, empty list)
    when the call raises; none lets an exception reach its caller. *)
Theorem clients_never_raise (rt : Runtime) (w : World) (log : list request) :
  (forall ticker,
      returns_or (fetch_stock_data ticker) w log
        (exists e, yf_history w log ticker "1d" "5m" = Raise e) pd.DataFrame_)
  /\ (forall country,
      returns_or (fetch_covid_data country) w log
        (exists e, http_json w log (covid_url country) [] = Raise e) JNull)
  /\ (forall city,
      returns_or (fetch_weather city) w log
        (exists e, http_json w log (geocoding_url city) [] = Raise e) JNull
      /\ returns_or (fetch_weather city) w log
        (forall lat lon, exists e,
            http_json w (log ++ [Get (geocoding_url city) []])%list
                      (forecast_url lat lon) [] = Raise e) JNull)
  /\ returns_or (fetch_crypto_data rt) w log
        (exists e, http_json w log crypto_url crypto_params = Raise e) pd.DataFrame_
  /\ (exists df, value fetch_market_caps w log = Ok df)
  /\ returns_or fetch_tech_news w log
        (exists e, http_json w log news_url [] = Raise e) [].
Proof.
  unfold returns_or, value. repeat split.
  - intros ticker. rewrite fetch_stock_data_run. eexists; split; [reflexivity|].
    intros [e ->]; reflexivity.
  - intros country. rewrite fetch_covid_data_run. eexists; split; [reflexivity|].
    intros [e ->]; reflexivity.
  - rewrite fetch_weather_run.
    destruct (http_json w log (geocoding_url city) []) as [geo|e]; cbn.
    + destruct (coordinates geo) as [[lat lon]|e]; cbn;
        (eexists; split; [reflexivity|]); intros [e' H]; discriminate.
    + eexists; split; [reflexivity|]; reflexivity.
  - rewrite fetch_weather_run.
    destruct (rbind (http_json w log (geocoding_url city) []) coordinates)
      as [[lat lon]|e]; cbn.
    + eexists; split; [reflexivity|]. intros H. destruct (H lat lon) as [e ->].
      reflexivity.
    + eexists; split; [reflexivity|]; reflexivity.
  - rewrite fetch_crypto_data_run. eexists; split; [reflexivity|].
    intros [e ->]; reflexivity.
  - eexists. reflexivity.
  - rewrite fetch_tech_news_run. eexists; split; [reflexivity|].
    intros [e ->]; reflexivity.
Qed.

Lemma clients_never_raise_offline :
  value (fetch_covid_data "India") offline [] = Ok JNull
  /\ value (fetch_weather "New Delhi") offline [] = Ok JNull.
Proof.
  destruct (clients_never_raise plain_runtime offline []) as (_ & Hc & Hw & _).
  split.
  - destruct (Hc "India") as (data & Hv & Hs).
    rewrite Hv. f_equal. apply Hs. eexists; reflexivity.
  - destruct (Hw "New Delhi") as ((data & Hv & Hs) & _).
    rewrite Hv. f_equal. apply Hs. eexists; reflexivity.
Defined.

(** C4. When geocoding finds no match, [fetch_weather] returns None having
    performed the geocoding request only, so the forecast request is never
    made; and whenever the geocoding step or the forecast step fails, it
    returns None. *)
Theorem weather_all_or_nothing (w : World) (log : list request) (city : string) :
  (forall geo,
      http_json w log (geocoding_url city) [] = Ok geo -> zero_results geo ->
      value (fetch_weather city) w log = Ok JNull
      /\ performed (fetch_weather city) w log
         = (log ++ [Get (geocoding_url city) []])%list)
  /\ (forall e,
      rbind (http_json w log (geocoding_url city) []) coordinates = Raise e ->
      value (fetch_weather city) w log = Ok JNull
      /\ performed (fetch_weather city) w log
         = (log ++ [Get (geocoding_url city) []])%list)
  /\ (forall lat lon e,
      rbind (http_json w log (geocoding_url city) []) coordinates = Ok (lat, lon) ->
      current_weather
        (http_json w (log ++ [Get (geocoding_url city) []])%list (forecast_url lat lon) [])
        = Raise e ->
      value (fetch_weather city) w log = Ok JNull).
Proof.
  unfold value, performed. split; [|split].
  - intros geo Hgeo Hzero. rewrite fetch_weather_run, Hgeo. cbn [rbind].
    destruct (zero_results_no_coordinates geo Hzero) as [e ->]. now split.
  - intros e H. rewrite fetch_weather_run, H. now split.
  - intros lat lon e H Hf. rewrite fetch_weather_run, H, Hf. reflexivity.
Qed.

Lemma weather_all_or_nothing_no_match :
  value (fetch_weather "Atlantis") (mock (Ok (JObj [("results", JArr [])])) (Ok [])) []
  = Ok JNull
  /\ performed (fetch_weather "Atlantis")
               (mock (Ok (JObj [("results", JArr [])])) (Ok [])) []
     = [Get (geocoding_url "Atlantis") []].
Proof.
  destruct (weather_all_or_nothing
              (mock (Ok (JObj [("results", JArr [])])) (Ok [])) [] "Atlantis")
    as (Hzero & _ & _).
  apply (Hzero (JObj [("results", JArr [])])).
  - reflexivity.
  - exists [("results", JArr [])]. split; [reflexivity|]. right; reflexivity.
Defined.

(** ** Number formatting *)

Lemma is_digit_string_of_uint (d : Decimal.uint) :
  all_digits (NilEmpty.string_of_uint d).
Proof.
  unfold all_digits.
  induction d; cbn; constructor; trivial; unfold is_digit; cbn; lia.
Qed.

Lemma decimal_all_digits (n : N) : all_digits (decimal n).
Proof.
  unfold decimal, NilZero.string_of_uint.
  destruct (N.to_uint n) eqn:E; try apply (is_digit_string_of_uint (_ _)).
  repeat constructor; unfold is_digit; cbn; lia.
Qed.

Lemma decimal_nonempty (n : N) : decimal n <> "".
Proof.
  unfold decimal, NilZero.string_of_uint.
  destruct (N.to_uint n); cbn; discriminate.
Qed.

Lemma decimal_one_digit (n : N) :
  (n < 10)%N -> exists d, decimal n = String d "" /\ is_digit d.
Proof.
  intros H. unfold is_digit.
  destruct n as [|p]; [eexists; split; [reflexivity | cbn; lia]|].
  do 4 (try destruct p as [p|p|]); try lia;
    eexists; (split; [reflexivity | cbn; lia]).
Qed.

Lemma fixed2_two_decimals (negative : bool) (h : N) :
  two_decimals (fixed2 negative h).
Proof.
  unfold fixed2.
  destruct (decimal_one_digit (h mod 100 / 10)) as (d1 & -> & H1).
  { apply N.Div0.div_lt_upper_bound. apply N.mod_lt. discriminate. }
  destruct (decimal_one_digit (h mod 10)) as (d2 & -> & H2).
  { apply N.mod_lt. discriminate. }
  exists (if negative then "-" else ""), (decimal (h / 100)), d1, d2.
  split; [reflexivity|]. split; [destruct negative; auto|].
  split; [apply decimal_nonempty|]. split; [apply decimal_all_digits|].
  split; assumption.
Qed.

(** A finite float under [".2f"] shows exactly two decimal places. *)
Lemma format_2f_finite (f : spec_float) :
  finite f = true -> two_decimals (format_2f f).
Proof.
  destruct f; cbn; try discriminate; intros _; apply fixed2_two_decimals.
Qed.

Lemma two_decimals_point (s : string) :
  two_decimals s -> In "."%char (list_ascii_of_string s).
Proof.
  intros (sign & whole & d1 & d2 & -> & _).
  induction sign as [|c sign IH]; cbn.
  - induction whole as [|c whole IH]; cbn; auto.
  - auto.
Qed.

(** NaN and the infinities do not. *)
Lemma format_2f_not_finite (f : spec_float) :
  finite f = false -> ~ two_decimals (format_2f f).
Proof.
  intros Hf H. apply two_decimals_point in H.
  destruct f as [s|s| |s m e]; cbn in Hf; try discriminate.
  - destruct s; cbn in H; intuition discriminate.
  - cbn in H; intuition discriminate.
Qed.

Lemma group3_commas_only (digits : list ascii) :
  filter (fun c => negb (Ascii.eqb c ","%char)) (group3 digits)
  = filter (fun c => negb (Ascii.eqb c ","%char)) digits.
Proof.
  assert (forall k (l : list ascii), (List.length l <= k)%nat ->
            filter (fun c => negb (Ascii.eqb c ","%char)) (group3 l)
            = filter (fun c => negb (Ascii.eqb c ","%char)) l) as H.
  { induction k as [|k IH]; intros l Hl.
    - destruct l; [reflexivity | cbn in Hl; lia].
    - destruct l as [|a [|b [|c [|d rest]]]]; try reflexivity.
      change (group3 (a :: b :: c :: d :: rest))
        with ([a; b; c; ","%char] ++ group3 (d :: rest))%list.
      change (a :: b :: c :: d :: rest) with ([a; b; c] ++ d :: rest)%list.
      rewrite !filter_app, IH by (cbn in Hl |- *; lia).
      f_equal. }
  apply (H (List.length digits)). lia.
Qed.

(** Grouping only adds commas: without them the digits are as before. *)
Lemma thousands_strip (digits : string) :
  all_digits digits -> strip_commas (thousands digits) = digits.
Proof.
  intros Hd. unfold strip_commas, thousands.
  rewrite list_ascii_of_string_of_list_ascii, filter_rev, group3_commas_only,
    <- filter_rev, rev_involutive.
  rewrite forallb_filter_id; [apply string_of_list_ascii_of_string|].
  apply forallb_forall. intros c Hc.
  unfold all_digits in Hd. rewrite Forall_forall in Hd. specialize (Hd c Hc).
  destruct (Ascii.eqb_spec c ","%char) as [->|]; [|reflexivity].
  unfold is_digit in Hd. cbn in Hd. lia.
Qed.

(** An int under [","] reads as its plain decimal once the commas are
    removed. *)
Lemma format_comma_int_strip (z : Z) :
  (0 <= z)%Z -> strip_commas (format_comma_int z) = decimal (Z.to_N z).
Proof.
  intros Hz. unfold format_comma_int.
  destruct (Z.ltb_spec z 0); [lia|]. cbn [append].
  rewrite thousands_strip by apply decimal_all_digits.
  f_equal. lia.
Qed.

(** The rounding of [".2f"] is to the nearest hundredth. *)
Lemma round_half_even_nearest (n d : N) :
  (0 < d)%N ->
  (2 * (round_half_even n d * d) <= 2 * n + d
   /\ 2 * n <= 2 * (round_half_even n d * d) + d)%N.
Proof.
  intros Hd. unfold round_half_even.
  pose proof (N.div_mod n d ltac:(lia)) as Hdm.
  pose proof (N.mod_lt n d ltac:(lia)) as Hlt.
  set (q := (n / d)%N) in *. set (r := (n mod d)%N) in *.
  destruct (N.compare_spec (2 * r) d) as [H|H|H];
    [destruct (N.even q)| |]; nia.
Qed.

(** ** The equity panel *)

Section Stock.

Variables (w : World) (log : list request).
Variables (n_clicks : option Z) (n_intervals : Z) (ticker : string).

Lemma update_stock_no_data :
  (exists e, yf_history w log ticker "1d" "5m" = Raise e)
  \/ yf_history w log ticker "1d" "5m" = Ok [] ->
  value (update_stock n_clicks n_intervals ticker) w log
  = Ok (no_stock_figure, "No data for " ++ ticker).
Proof.
  intros H. unfold value, update_stock, bind.
  rewrite fetch_stock_data_run.
  destruct H as [[e ->] | ->]; reflexivity.
Qed.

Lemma update_stock_latest (earlier : list Bar) (latest : Bar) :
  yf_history w log ticker "1d" "5m" = Ok (earlier ++ [latest])%list ->
  exists fig,
    value (update_stock n_clicks n_intervals ticker) w log
    = Ok (fig, "Last Updated: " ++ Datetime latest ++ " | Price: $"
               ++ format_2f (Close latest))
    /\ go.data fig
       = map (fun bar => (JStr (Datetime bar), JFloat (Close bar)))
             (earlier ++ [latest])%list.
Proof.
  intros H. unfold value, update_stock, bind.
  rewrite fetch_stock_data_run, H.
  assert (pd.empty (pd.reset_index (earlier ++ [latest])%list) = false) as ->.
  { destruct earlier; reflexivity. }
  unfold lift, ret, pd.iloc_last. cbn [px.line px.plot forallb].
  cbn [pd.reset_index pd.rows]. rewrite rev_app_distr. cbn.
  eexists; split; reflexivity.
Qed.

End Stock.

(** C5, for a finite close. With an empty price series (no rows, or the price query
    raised) the info text is "No data for {ticker}"; otherwise it is
    "Last Updated: T | Price: $P" for the timestamp T and the close P of the
    last row, P under [".2f"], which for a finite close is text with exactly
    two decimal places. *)
Theorem stock_info_text (w : World) (log : list request)
    (n_clicks : option Z) (n_intervals : Z) (ticker : string) :
  ((exists e, yf_history w log ticker "1d" "5m" = Raise e)
   \/ yf_history w log ticker "1d" "5m" = Ok [] ->
   value (update_stock n_clicks n_intervals ticker) w log
   = Ok (no_stock_figure, "No data for " ++ ticker))
  /\ (forall earlier latest,
      yf_history w log ticker "1d" "5m" = Ok (earlier ++ [latest])%list ->
      (exists fig,
          value (update_stock n_clicks n_intervals ticker) w log
          = Ok (fig, "Last Updated: " ++ Datetime latest ++ " | Price: $"
                     ++ format_2f (Close latest)))
      /\ (finite (Close latest) = true -> two_decimals (format_2f (Close latest)))).
Proof.
  split.
  - apply update_stock_no_data.
  - intros earlier latest H. split.
    + destruct (update_stock_latest w log n_clicks n_intervals ticker earlier latest H)
        as (fig & Hv & _).
      exists fig. exact Hv.
    + apply format_2f_finite.
Qed.

Lemma stock_info_text_offline :
  value (update_stock None 0 "AAPL") offline [] = Ok (no_stock_figure, "No data for AAPL").
Proof.
  destruct (stock_info_text offline [] None 0 "AAPL") as (Hnone & _).
  apply Hnone. left. eexists. reflexivity.
Defined.

(** A close that is NaN is shown as "nan", which has no decimal places. *)
Lemma stock_price_nan :
  (exists fig,
      value (update_stock None 0 "AAPL") nan_quote []
      = Ok (fig, "Last Updated: 2025-01-02 15:55:00-05:00 | Price: $nan"))
  /\ ~ two_decimals "nan".
Proof.
  split.
  - eexists. reflexivity.
  - apply (format_2f_not_finite S754_nan). reflexivity.
Qed.

(** ** The market-cap table *)

Lemma SFcompare_antisym (a b : spec_float) :
  SFcompare b a = option_map CompOpp (SFcompare a b).
Proof.
  destruct a as [s1|s1| |s1 m1 e1], b as [s2|s2| |s2 m2 e2]; cbn; trivial;
    try (destruct s1; reflexivity); try (destruct s2; reflexivity);
    try (destruct s1, s2; reflexivity).
  assert (Pos.compare_cont Eq m2 m1 = CompOpp (Pos.compare_cont Eq m1 m2)) as ->
    by (symmetry; apply (Pos.compare_cont_antisym m1 m2 Eq)).
  rewrite (Z.compare_antisym e1 e2).
  destruct s1, s2; cbn; trivial;
    destruct (e1 ?= e2); cbn; trivial;
    destruct (Pos.compare_cont Eq m1 m2); reflexivity.
Qed.

Lemma before_desc_total (a b : spec_float) :
  pd.before_desc a b = false -> pd.before_desc b a = true.
Proof.
  unfold pd.before_desc. rewrite (SFcompare_antisym a b).
  destruct a as [[]|[]| |[] m1 e1], b as [[]|[]| |[] m2 e2]; cbn; trivial;
    try discriminate;
    destruct (e1 ?= e2); cbn; trivial; try discriminate;
    destruct (Pos.compare_cont Eq m1 m2); cbn; trivial; discriminate.
Qed.

(** On numbers, going before in descending order is being at least as
    large. *)
Lemma before_desc_SFleb (a b : spec_float) :
  a <> S754_nan -> b <> S754_nan ->
  pd.before_desc a b = true -> SFleb b a = true.
Proof.
  unfold pd.before_desc, SFleb. rewrite (SFcompare_antisym a b).
  intros Ha Hb.
  destruct a as [[]|[]| |[] m1 e1], b as [[]|[]| |[] m2 e2]; try congruence;
    cbn; trivial; try discriminate;
    destruct (e1 ?= e2); cbn; trivial; try discriminate;
    destruct (Pos.compare_cont Eq m1 m2); cbn; trivial; discriminate.
Qed.

Section SortValues.

Context {R : Type} (key : R -> spec_float).

Lemma insert_desc_perm (x : R) (l : list R) :
  Permutation (x :: l) (pd.insert_desc key x l).
Proof.
  induction l as [|y l IH]; cbn; [reflexivity|].
  destruct (pd.before_desc (key x) (key y)); [reflexivity|].
  rewrite perm_swap. now constructor.
Qed.

Lemma insert_desc_hd (x y : R) (l : list R) :
  desc_by key y x -> HdRel (desc_by key) y l -> HdRel (desc_by key) y (pd.insert_desc key x l).
Proof.
  intros Hyx Hl. destruct l as [|z l]; cbn; [now constructor|].
  destruct (pd.before_desc (key x) (key z)); constructor; trivial.
  now inversion Hl.
Qed.

Lemma insert_desc_sorted (x : R) (l : list R) :
  Sorted (desc_by key) l -> Sorted (desc_by key) (pd.insert_desc key x l).
Proof.
  induction 1 as [|y l Hs IH Hhd]; cbn; [repeat constructor|].
  destruct (pd.before_desc (key x) (key y)) eqn:E.
  - repeat constructor; trivial.
  - constructor; [exact IH|].
    apply insert_desc_hd; [|exact Hhd]. now apply before_desc_total.
Qed.

(** [sort_values] permutes the rows and leaves them in descending order
    of the key, NaN last. *)
Lemma sort_values_desc_spec (df : pd.DataFrame R) :
  Permutation (pd.rows df) (pd.rows (pd.sort_values_desc key df))
  /\ Sorted (desc_by key) (pd.rows (pd.sort_values_desc key df))
  /\ pd.columns (pd.sort_values_desc key df) = pd.columns df.
Proof.
  cbn. destruct df as [cols l]; cbn. repeat split.
  - induction l as [|x l IH]; cbn; [constructor|].
    rewrite <- insert_desc_perm. now constructor.
  - induction l as [|x l IH]; cbn; [constructor|]. now apply insert_desc_sorted.
Qed.

End SortValues.

(** C6. [fetch_market_caps] never fails and always returns the same table
    of eight rows, in descending order of market cap; it reads nothing from
    the world and performs no request. *)
Theorem market_caps_static_sorted (w w' : World) (log log' : list request) :
  fetch_market_caps w log
  = (Ok (pd.mk ["Company"; "MarketCap"] market_caps_sorted), log)
  /\ List.length market_caps_sorted = 8%nat
  /\ StronglySorted cap_ge market_caps_sorted
  /\ Permutation companies market_caps_sorted
  /\ value fetch_market_caps w log = value fetch_market_caps w' log'.
Proof.
  assert (pd.sort_values_desc snd (pd.mk ["Company"; "MarketCap"] companies)
          = pd.mk ["Company"; "MarketCap"] market_caps_sorted) as Hsort
    by (vm_compute; reflexivity).
  split; [unfold fetch_market_caps, ret; now rewrite Hsort|].
  split; [reflexivity|].
  split; [repeat constructor|].
  split; [|reflexivity].
  pose proof (sort_values_desc_spec snd (pd.mk ["Company"; "MarketCap"] companies))
    as (Hperm & _).
  rewrite Hsort in Hperm. exact Hperm.
Qed.

(** ** The pandemic panel *)

Section Covid.

Variables (rt : Runtime) (w : World) (log : list request).
Variables (n_clicks : option Z) (n_intervals : Z) (country : string).

Lemma update_covid_run :
  value (update_covid rt n_clicks n_intervals country) w log =
  let data := match http_json w log (covid_url country) [] with
              | Ok data => data
              | Raise _ => JNull
              end in
  if truthy data then
    rbind (getitem data "country") (fun c =>
    rbind (rbind (getitem data "cases") (format_comma rt)) (fun cases =>
    rbind (rbind (getitem data "active") (format_comma rt)) (fun active =>
    rbind (rbind (getitem data "recovered") (format_comma rt)) (fun recovered =>
    rbind (rbind (getitem data "deaths") (format_comma rt)) (fun deaths =>
    Ok (html.Div [html.P ("Country: " ++ format_str rt c) None;
                  html.P ("Cases: " ++ cases) None;
                  html.P ("Active: " ++ active) None;
                  html.P ("Recovered: " ++ recovered) None;
                  html.P ("Deaths: " ++ deaths) None] None))))))
  else Ok no_covid_data.
Proof.
  unfold value, update_covid, bind. rewrite fetch_covid_data_run. cbn zeta.
  destruct (truthy _); reflexivity.
Qed.

(** A failed request, or any falsy body, shows the warning. *)
Lemma update_covid_no_data :
  (exists e, http_json w log (covid_url country) [] = Raise e)
  \/ (exists data, http_json w log (covid_url country) [] = Ok data
                   /\ truthy data = false) ->
  value (update_covid rt n_clicks n_intervals country) w log = Ok no_covid_data.
Proof.
  intros H. rewrite update_covid_run.
  destruct H as [[e ->] | (data & -> & Hd)]; cbn; [reflexivity|].
  now rewrite Hd.
Qed.

(** A truthy body without a [country] key makes the callback raise. *)
Lemma update_covid_key_error (fields : list (string * json)) :
  http_json w log (covid_url country) [] = Ok (JObj fields) ->
  fields <> [] -> lookup "country" fields = None ->
  value (update_covid rt n_clicks n_intervals country) w log
  = Raise (KeyError "country").
Proof.
  intros H Hne Hc. rewrite update_covid_run, H. cbn zeta.
  unfold getitem at 1. rewrite Hc.
  destruct fields; [congruence|]. reflexivity.
Qed.

(** A stats record with integer counters is shown with thousands
    separators. *)
Lemma update_covid_record (fields : list (string * json)) (c : json)
    (cases active recovered deaths : Z) :
  http_json w log (covid_url country) [] = Ok (JObj fields) ->
  lookup "country" fields = Some c ->
  lookup "cases" fields = Some (JInt cases) ->
  lookup "active" fields = Some (JInt active) ->
  lookup "recovered" fields = Some (JInt recovered) ->
  lookup "deaths" fields = Some (JInt deaths) ->
  value (update_covid rt n_clicks n_intervals country) w log
  = Ok (html.Div [html.P ("Country: " ++ format_str rt c) None;
                  html.P ("Cases: " ++ format_comma_int cases) None;
                  html.P ("Active: " ++ format_comma_int active) None;
                  html.P ("Recovered: " ++ format_comma_int recovered) None;
                  html.P ("Deaths: " ++ format_comma_int deaths) None] None).
Proof.
  intros H Hc H1 H2 H3 H4. rewrite update_covid_run, H. cbn zeta.
  assert (truthy (JObj fields) = true) as ->
    by (destruct fields; [discriminate|reflexivity]).
  unfold getitem. rewrite Hc, H1, H2, H3, H4. reflexivity.
Qed.

End Covid.

(** C7. For the record of "India" with cases 1000, active 100, recovered 880
    and deaths 20, the panel shows "Cases: 1,000", "Active: 100",
    "Recovered: 880" and "Deaths: 20" under the country line. *)
Theorem covid_panel_india (rt : Runtime) (w : World) (log : list request)
    (n_clicks : option Z) (n_intervals : Z) (fields : list (string * json)) :
  http_json w log (covid_url "India") [] = Ok (JObj fields) ->
  lookup "country" fields = Some (JStr "India") ->
  lookup "cases" fields = Some (JInt 1000) ->
  lookup "active" fields = Some (JInt 100) ->
  lookup "recovered" fields = Some (JInt 880) ->
  lookup "deaths" fields = Some (JInt 20) ->
  value (update_covid rt n_clicks n_intervals "India") w log
  = Ok (html.Div [html.P "Country: India" None;
                  html.P "Cases: 1,000" None;
                  html.P "Active: 100" None;
                  html.P "Recovered: 880" None;
                  html.P "Deaths: 20" None] None).
Proof.
  intros H Hc H1 H2 H3 H4.
  now rewrite (update_covid_record rt w log n_clicks n_intervals "India" fields
                 _ _ _ _ _ H Hc H1 H2 H3 H4).
Qed.

Lemma covid_panel_india_mocked :
  value (update_covid plain_runtime None 0 "India") (mock (Ok india_stats) (Ok [])) []
  = Ok (html.Div [html.P "Country: India" None;
                  html.P "Cases: 1,000" None;
                  html.P "Active: 100" None;
                  html.P "Recovered: 880" None;
                  html.P "Deaths: 20" None] None).
Proof.
  apply (covid_panel_india plain_runtime (mock (Ok india_stats) (Ok [])) [] None 0
           [("country", JStr "India"); ("cases", JInt 1000); ("active", JInt 100);
            ("recovered", JInt 880); ("deaths", JInt 20)]); reflexivity.
Defined.

(** C3, at an unknown country. For a country the endpoint does not know
    it answers with a message record; [fetch_covid_data] hands that record
    on instead of None, and [update_covid] raises KeyError instead of
    showing the warning. *)
Theorem covid_unknown_country_raises (rt : Runtime) (log : list request)
    (n_clicks : option Z) (n_intervals : Z) :
  value (fetch_covid_data "Atlantis") (mock (Ok country_not_found) (Ok [])) log
  = Ok country_not_found
  /\ value (update_covid rt n_clicks n_intervals "Atlantis")
           (mock (Ok country_not_found) (Ok [])) log
     = Raise (KeyError "country").
Proof.
  split.
  - unfold value. now rewrite fetch_covid_data_run.
  - now apply (update_covid_key_error rt _ log n_clicks n_intervals "Atlantis"
                 [("message", JStr "Country not found or doesn't have any cases")]).
Qed.

(** ** The news panel *)

Section Comprehension.

Context {A B : Type} (f : A -> result B).

Lemma comprehension_ok (items : list A) (bs : list B) :
  comprehension f items = Ok bs -> Forall2 (fun a b => f a = Ok b) items bs.
Proof.
  revert bs. induction items as [|a items IH]; cbn; intros bs H.
  - injection H as <-. constructor.
  - destruct (f a) as [b|e] eqn:Ea; cbn in H; [|discriminate].
    destruct (comprehension f items) as [bs'|e]; cbn in H; [|discriminate].
    injection H as <-. constructor; auto.
Qed.

Lemma comprehension_raise (items : list A) :
  Exists (fun a => exists e, f a = Raise e) items ->
  exists e, comprehension f items = Raise e.
Proof.
  induction 1 as [a items [e Ha] | a items _ [e IH]]; cbn.
  - rewrite Ha. cbn. eauto.
  - rewrite IH. destruct (f a); cbn; eauto.
Qed.

End Comprehension.

Section News.

Variables (w : World) (log : list request) (n : Z).

Lemma update_news_run :
  value (update_news n) w log =
  Ok match value fetch_tech_news w log with
     | Ok (headline :: more) => Many (map news_item (headline :: more))
     | _ => no_news
     end.
Proof.
  unfold value, update_news, bind. rewrite fetch_tech_news_run. cbn [fst].
  destruct (match rbind _ _ with Ok news => news | Raise _ => [] end) as [|h more];
    cbn; [reflexivity|].
  unfold ret; cbn. do 3 f_equal.
  - now destruct h.
  - apply map_ext. now intros [title link].
Qed.

Lemma incomplete_hit_raises (hit : json) :
  incomplete_hit hit ->
  exists e, rbind (getitem hit "title") (fun title =>
            rbind (getitem hit "url") (fun url => Ok (title, url))) = Raise e.
Proof.
  intros (fields & -> & [H|H]); unfold getitem; rewrite H; cbn; eauto.
  destruct (lookup "title" fields); cbn; eauto.
Qed.

Lemma headlines_incomplete (data : json) (hits : list json) :
  getitem data "hits" = Ok (JArr hits) -> Exists incomplete_hit hits ->
  exists e, headlines data = Raise e.
Proof.
  intros Hhits Hex. unfold headlines. rewrite Hhits. cbn.
  apply comprehension_raise.
  eapply Exists_impl; [|exact Hex]. apply incomplete_hit_raises.
Qed.

End News.

(** C8. When the news fetch yields no headline (the request raised, or the
    response has zero hits) the panel shows exactly the "no news" message. *)
Theorem news_zero_hits (w : World) (log : list request) (n : Z) :
  (value fetch_tech_news w log = Ok [] -> value (update_news n) w log = Ok no_news)
  /\ ((exists e, http_json w log news_url [] = Raise e) ->
      value (update_news n) w log = Ok no_news)
  /\ (forall data,
      http_json w log news_url [] = Ok data -> getitem data "hits" = Ok (JArr []) ->
      value (update_news n) w log = Ok no_news).
Proof.
  repeat split.
  - intros H. now rewrite update_news_run, H.
  - intros [e H]. rewrite update_news_run. unfold value.
    now rewrite fetch_tech_news_run, H.
  - intros data H Hhits. rewrite update_news_run. unfold value.
    rewrite fetch_tech_news_run, H. cbn. unfold headlines. now rewrite Hhits.
Qed.

Lemma news_zero_hits_mocked :
  value (update_news 0) (mock (Ok (JObj [("hits", JArr [])])) (Ok [])) [] = Ok no_news.
Proof.
  destruct (news_zero_hits (mock (Ok (JObj [("hits", JArr [])])) (Ok [])) [] 0)
    as (_ & _ & H).
  apply (H (JObj [("hits", JArr [])])); reflexivity.
Defined.

(** C10. If some hit of the response lacks a title or a url, the fetch
    returns the empty list and the panel shows the "no news" message; and
    the panel shows either that message or one item for every hit of the
    response, never a part of them. *)
Theorem headlines_all_or_nothing (w : World) (log : list request) (n : Z) :
  (forall data hits,
      http_json w log news_url [] = Ok data ->
      getitem data "hits" = Ok (JArr hits) -> Exists incomplete_hit hits ->
      value fetch_tech_news w log = Ok []
      /\ value (update_news n) w log = Ok no_news)
  /\ (value (update_news n) w log = Ok no_news
      \/ exists data hits news,
           http_json w log news_url [] = Ok data
           /\ rbind (getitem data "hits") iter = Ok hits
           /\ Forall2 (fun hit headline =>
                         getitem hit "title" = Ok (fst headline)
                         /\ getitem hit "url" = Ok (snd headline)) hits news
           /\ value (update_news n) w log = Ok (Many (map news_item news))).
Proof.
  split.
  - intros data hits H Hhits Hex.
    destruct (headlines_incomplete data hits Hhits Hex) as [e He].
    assert (value fetch_tech_news w log = Ok []) as Hf.
    { unfold value. rewrite fetch_tech_news_run, H. cbn. now rewrite He. }
    split; [exact Hf|]. now rewrite update_news_run, Hf.
  - rewrite update_news_run. unfold value. rewrite fetch_tech_news_run. cbn [fst].
    destruct (http_json w log news_url []) as [data|e]; cbn; [|now left].
    destruct (headlines data) as [[|h more]|e] eqn:Eh; [now left| |now left].
    right. unfold headlines in Eh.
    destruct (rbind (getitem data "hits") iter) as [hits|e] eqn:Ehits; [|discriminate].
    cbn in Eh. exists data, hits, (h :: more). repeat split; trivial.
    apply comprehension_ok in Eh.
    eapply Forall2_impl; [|exact Eh]. cbn. intros hit [title link] Hx.
    destruct (getitem hit "title") as [t|]; [|discriminate]. cbn in Hx.
    destruct (getitem hit "url") as [u|]; [|discriminate]. cbn in Hx.
    injection Hx as <- <-. now split.
Qed.

Lemma headlines_all_or_nothing_mocked :
  value (update_news 0)
        (mock (Ok (JObj [("hits", JArr [JObj [("title", JStr "A"); ("url", JStr "u")];
                                        JObj [("title", JStr "B")]])]))
              (Ok [])) []
  = Ok no_news.
Proof.
  destruct (headlines_all_or_nothing
              (mock (Ok (JObj [("hits", JArr [JObj [("title", JStr "A"); ("url", JStr "u")];
                                              JObj [("title", JStr "B")]])]))
                    (Ok [])) [] 0) as (H & _).
  eapply H; [reflexivity | reflexivity |].
  apply Exists_cons_tl, Exists_cons_hd.
  exists [("title", JStr "B")]. split; [reflexivity|]. right; reflexivity.
Defined.

(** ** The crypto panel *)

Section Frames.

Lemma add_keys_keep (fields : list (string * json)) (seen : list string) (k : string) :
  In k seen -> In k (fold_left pd.add_key fields seen).
Proof.
  revert seen. induction fields as [|kv fields IH]; cbn; intros seen H; trivial.
  apply IH. unfold pd.add_key. destruct (existsb _ seen); trivial.
  apply in_or_app. now left.
Qed.

Lemma add_keys_new (fields : list (string * json)) (seen : list string) (k : string) :
  In k (map fst fields) -> In k (fold_left pd.add_key fields seen).
Proof.
  revert seen. induction fields as [|kv fields IH]; cbn; intros seen H; [easy|].
  destruct H as [<- | H]; [|now apply IH].
  apply add_keys_keep. unfold pd.add_key.
  destruct (existsb _ seen) eqn:E.
  - apply existsb_exists in E as (k' & Hin & Heq).
    apply String.eqb_eq in Heq. now subst.
  - apply in_or_app. right. now left.
Qed.

Lemma union_keys_keep (recs : list (list (string * json))) (seen : list string) (k : string) :
  In k seen -> In k (pd.union_keys seen recs).
Proof.
  revert seen. induction recs as [|fields recs IH]; cbn; intros seen H; trivial.
  apply IH. now apply add_keys_keep.
Qed.

(** Every key of every record is a column. *)
Lemma union_keys_in (recs : list (list (string * json))) (seen : list string)
    (fields : list (string * json)) (k : string) :
  In fields recs -> In k (map fst fields) -> In k (pd.union_keys seen recs).
Proof.
  revert seen. induction recs as [|r recs IH]; cbn; intros seen Hin Hk; [easy|].
  destruct Hin as [-> | Hin]; [|now apply IH].
  apply union_keys_keep. now apply add_keys_new.
Qed.

Lemma records_coins (coins : list (string * json * list (string * json))) :
  pd.records (map coin_of coins)
  = Some (map (fun c => ("name", JStr (fst (fst c)))
                        :: ("current_price", snd (fst c)) :: snd c) coins).
Proof.
  induction coins as [|c coins IH]; cbn; [reflexivity|]. now rewrite IH.
Qed.

End Frames.

Section Traces.

Context {P : Type}.

Lemma flat_map_agree {A B : Type} (f g : A -> list B) (l : list A) :
  (forall a, In a l -> f a = g a) -> flat_map f l = flat_map g l.
Proof.
  induction l as [|a l IH]; cbn; intros H; [reflexivity|].
  rewrite (H a) by now left. f_equal. apply IH. intros b Hb. apply H. now right.
Qed.

Lemma add_names_spec (names acc : list string) :
  NoDup acc ->
  NoDup (fold_left px.add_name names acc)
  /\ (forall x, In x acc \/ In x names -> In x (fold_left px.add_name names acc))
  /\ (NoDup (acc ++ names) -> fold_left px.add_name names acc = (acc ++ names)%list).
Proof.
  revert acc. induction names as [|name names IH]; cbn; intros acc Hacc.
  - split; [exact Hacc|]. split; [intros x [H|[]]; exact H|].
    intros _. now rewrite app_nil_r.
  - unfold px.add_name at 2 4 6. destruct (existsb (String.eqb name) acc) eqn:E.
    + apply existsb_exists in E as (y & Hy & Heq). apply String.eqb_eq in Heq. subst y.
      destruct (IH acc Hacc) as (H1 & H2 & _).
      split; [exact H1|]. split.
      * intros x [H|[<-|H]]; apply H2; auto.
      * intros Hnd. exfalso. apply NoDup_remove_2 in Hnd. apply Hnd.
        apply in_or_app. now left.
    + assert (~ In name acc) as Hnot.
      { intros Hin. apply Bool.not_true_iff_false in E. apply E.
        apply existsb_exists. exists name. split; [exact Hin | apply String.eqb_refl]. }
      assert (NoDup (acc ++ [name])) as Hacc'.
      { apply NoDup_app; [exact Hacc | repeat constructor; intros [] |].
        intros x Hx [<-|[]]. contradiction. }
      destruct (IH (acc ++ [name])%list Hacc') as (H1 & H2 & H3).
      split; [exact H1|]. split.
      * intros x [H|[<-|H]]; apply H2.
        -- left. apply in_or_app. now left.
        -- left. apply in_or_app. right. now left.
        -- now right.
      * intros Hnd. rewrite H3; rewrite <- app_assoc; [reflexivity | exact Hnd].
Qed.

Lemma distinct_spec (names : list string) :
  NoDup (px.distinct names)
  /\ (forall x, In x names -> In x (px.distinct names))
  /\ (NoDup names -> px.distinct names = names).
Proof.
  destruct (add_names_spec names [] (NoDup_nil _)) as (H1 & H2 & H3).
  split; [exact H1|]. split; [intros x Hx; apply H2; now right | exact H3].
Qed.

Lemma filter_split (f : string * P -> bool) (named : list (string * P)) :
  Permutation named (filter f named ++ filter (fun np => negb (f np)) named).
Proof.
  induction named as [|np named IH]; cbn; [constructor|].
  destruct (f np); cbn; [now constructor|].
  now apply Permutation_cons_app.
Qed.

Lemma filter_other (k k' : string) (named : list (string * P)) :
  k' <> k ->
  filter (fun np => (fst np =? k')%string) named
  = filter (fun np => (fst np =? k')%string)
           (filter (fun np => negb (fst np =? k)%string) named).
Proof.
  intros Hne. induction named as [|np named IH]; cbn; [reflexivity|].
  destruct (String.eqb_spec (fst np) k) as [Hk|Hk]; cbn.
  - destruct (String.eqb_spec (fst np) k'); [congruence | exact IH].
  - destruct (fst np =? k')%string; [now rewrite IH | exact IH].
Qed.

Lemma traces_of_names (names : list string) (named : list (string * P)) :
  NoDup names -> (forall np, In np named -> In (fst np) names) ->
  Permutation (map snd named)
    (flat_map (fun name => map snd (filter (fun np => (fst np =? name)%string) named))
              names).
Proof.
  intros Hnd. revert named.
  induction Hnd as [|k names Hk Hnd IH]; intros named Hin; cbn.
  - destruct named as [|np named]; [constructor|]. destruct (Hin np). now left.
  - rewrite (filter_split (fun np => (fst np =? k)%string) named) at 1.
    rewrite map_app. apply Permutation_app_head.
    rewrite (flat_map_agree
               (fun name => map snd (filter (fun np => (fst np =? name)%string) named))
               (fun name => map snd
                  (filter (fun np => (fst np =? name)%string)
                          (filter (fun np => negb (fst np =? k)%string) named)))).
    + apply IH. intros np Hnp. apply filter_In in Hnp as [Hnp Hneq].
      cbn in Hneq. destruct (Hin np Hnp) as [Heq|H]; [|exact H].
      rewrite <- Heq, String.eqb_refl in Hneq. discriminate.
    + intros k' Hk'. f_equal. apply filter_other. congruence.
Qed.

(** Splitting into traces rearranges the points and loses none. *)
Lemma by_name_perm (named : list (string * P)) :
  Permutation (map snd named) (px.by_name named).
Proof.
  destruct (distinct_spec (map fst named)) as (Hnd & Hin & _).
  apply traces_of_names; [exact Hnd|].
  intros np Hnp. apply Hin. now apply in_map.
Qed.

Lemma filter_absent (k : string) (named : list (string * P)) :
  ~ In k (map fst named) -> filter (fun np => (fst np =? k)%string) named = [].
Proof.
  induction named as [|np named IH]; cbn; [reflexivity|]. intros Hn.
  destruct (String.eqb_spec (fst np) k); [tauto|]. apply IH. tauto.
Qed.

(** With pairwise distinct names each row is a trace of its own, and the
    points stay in frame order. *)
Lemma by_name_distinct (named : list (string * P)) :
  NoDup (map fst named) -> px.by_name named = map snd named.
Proof.
  intros Hnd. unfold px.by_name.
  destruct (distinct_spec (map fst named)) as (_ & _ & ->); [|exact Hnd].
  induction named as [|[k p] named IH]; cbn; [reflexivity|].
  inversion Hnd as [|k' l Hk Hnd']; subst.
  rewrite String.eqb_refl. cbn. rewrite (filter_absent k named Hk). cbn. f_equal.
  rewrite <- (IH Hnd'). apply flat_map_agree. intros k' Hk'.
  destruct (String.eqb_spec k k'); [congruence | reflexivity].
Qed.

End Traces.

Lemma combine_maps {A B C : Type} (f : A -> B) (g : A -> C) (l : list A) :
  combine (map f l) (map g l) = map (fun a => (f a, g a)) l.
Proof. induction l; cbn; congruence. Qed.

(** Rows with the same name end up next to each other, in the trace of
    that name. *)
Example by_name_regroups :
  px.by_name [("Bitcoin", 1%nat); ("Ethereum", 2%nat); ("Bitcoin", 3%nat)]
  = [1%nat; 3%nat; 2%nat].
Proof. reflexivity. Qed.

(** Ints become the nearest float: exactly below 2^53, rounded to even
    above (2^53 + 1 goes to 2^53, 2^53 + 3 to 2^53 + 4). *)
Example float_of_int_rounds :
  pd.float_of_int 67187 = S754_finite false 4617055483461632 (-36)
  /\ pd.float_of_int 9007199254740993 = S754_finite false 4503599627370496 1
  /\ pd.float_of_int 9007199254740995 = S754_finite false 4503599627370498 1
  /\ pd.float_of_int (-3) = S754_finite true 6755399441055744 (-51)
  /\ pd.float_of_int 9223372036854775807 = S754_finite false 4503599627370496 11.
Proof. vm_compute. repeat split. Qed.

Lemma strings_names (names : list string) :
  px.strings (map JStr names) = Some names.
Proof.
  induction names as [|name names IH]; cbn; [reflexivity|].
  unfold px.strings in IH. now rewrite IH.
Qed.

Lemma lookup_columns (k : string) (cols : list string) (f : string -> json) :
  In k cols -> lookup k (map (fun c => (c, f c)) cols) = Some (f k).
Proof.
  induction cols as [|c cols IH]; cbn; [tauto|]. intros H.
  destruct (String.eqb_spec k c) as [->|Hne]; [reflexivity|].
  destruct H as [<-|H]; [congruence | now apply IH].
Qed.

Lemma nonnegative_to_float64 (price : json) :
  nonnegative price = true -> nonnegative (pd.to_float64 price) = true.
Proof.
  destruct price as [| | z | | | |]; trivial. cbn. intros Hz.
  destruct z as [|p|p]; [reflexivity | | discriminate].
  unfold pd.float_of_int, pd.float_of_pos.
  destruct (_ <=? 53); [reflexivity|].
  destruct (round_half_even _ _) as [|q]; [reflexivity|].
  now destruct (q =? 2 ^ 53)%positive.
Qed.

Lemma numeric_column (prices : list json) :
  Forall (fun p => numeric p = true) prices ->
  pd.all_int64 (map Some prices) = forallb is_int prices
  /\ pd.all_number (map Some prices) = true.
Proof.
  unfold pd.all_int64, pd.all_number.
  induction 1 as [|p prices Hp _ [IH1 IH2]]; cbn; [now split|].
  rewrite IH1, IH2. destruct p; try discriminate; cbn in *; rewrite ?Hp; now split.
Qed.

(** The cell a column of numbers stores for one of its prices. *)
Lemma stored_numeric (rt : Runtime) (prices : list json) (price : json) :
  Forall (fun p => numeric p = true) prices -> In price prices ->
  pd.stored rt (map Some prices) (Some price) = shown_price prices price.
Proof.
  intros Hnum Hin. unfold pd.stored, shown_price.
  assert (pd.all_str (map Some prices) = false) as ->.
  { unfold pd.all_str. apply Bool.not_true_iff_false. intros H.
    rewrite forallb_forall in H. specialize (H (Some price) (in_map _ _ _ Hin)).
    rewrite Forall_forall in Hnum. specialize (Hnum price Hin).
    destruct price; discriminate. }
  destruct (numeric_column prices Hnum) as [-> ->]. reflexivity.
Qed.

(** A column of strings stores what it received. *)
Lemma stored_names (rt : Runtime) (names : list string) (name : string) :
  pd.stored rt (map (fun s => Some (JStr s)) names) (Some (JStr name)) = JStr name.
Proof.
  unfold pd.stored.
  assert (pd.all_str (map (fun s => Some (JStr s)) names) = true) as ->;
    [|reflexivity].
  unfold pd.all_str. induction names; cbn; trivial.
Qed.

Section Crypto.

Variables (rt : Runtime) (w : World) (log : list request) (n : Z).

(** The frame of a response of coins: it has the two columns, a row per
    coin, the names as received and the prices as the price column stores
    them. *)
Lemma DataFrame_of_coins (c : string * json * list (string * json))
    (coins : list (string * json * list (string * json))) :
  Forall (fun c' => numeric (snd (fst c')) = true) (c :: coins) ->
  exists df,
    pd.DataFrame_of rt (JArr (map coin_of (c :: coins))) = Ok df
    /\ pd.empty df = false
    /\ px.has_column df "name" = true /\ px.has_column df "current_price" = true
    /\ map (fun row => (px.at_ row "name",
                        (px.at_ row "name", px.at_ row "current_price"))) (pd.rows df)
       = map (fun c' => (JStr (fst (fst c')), shown_bar (c :: coins) c')) (c :: coins).
Proof.
  intros Hnum.
  pose proof (records_coins (c :: coins)) as Hrec.
  change (fun c0 : string * json * list (string * json) =>
            ("name", JStr (fst (fst c0))) :: ("current_price", snd (fst c0)) :: snd c0)
    with fields_of in Hrec.
  set (recs := map fields_of (c :: coins)) in *.
  assert (In "name" (pd.union_keys [] recs)) as Hn
    by (apply (union_keys_in recs [] (fields_of c)); [now left | cbn; auto]).
  assert (In "current_price" (pd.union_keys [] recs)) as Hp
    by (apply (union_keys_in recs [] (fields_of c)); [now left | cbn; auto]).
  exists (pd.of_records rt recs). split; [|split; [|split; [|split]]].
  - unfold pd.DataFrame_of. change (map coin_of (c :: coins))
      with (coin_of c :: map coin_of coins) in *. now rewrite Hrec.
  - unfold pd.empty, pd.of_records; cbn [pd.rows pd.columns].
    destruct (pd.union_keys [] recs); [destruct Hn | reflexivity].
  - apply existsb_exists. exists "name". split; [exact Hn | apply String.eqb_refl].
  - apply existsb_exists. exists "current_price".
    split; [exact Hp | apply String.eqb_refl].
  - unfold pd.of_records; cbn [pd.rows]. subst recs. rewrite !map_map.
    apply map_ext_in. intros c' Hc'. unfold px.at_, cell, Row_record.
    rewrite !lookup_columns by assumption.
    change (lookup "name" (fields_of c')) with (Some (JStr (fst (fst c')))).
    change (lookup "current_price" (fields_of c')) with (Some (snd (fst c'))).
    assert (map (lookup "name") (map fields_of (c :: coins))
            = map (fun s => Some (JStr s)) (map (fun c0 => fst (fst c0)) (c :: coins)))
      as -> by (rewrite !map_map; reflexivity).
    rewrite stored_names.
    assert (map (lookup "current_price") (map fields_of (c :: coins))
            = map Some (map (fun c0 => snd (fst c0)) (c :: coins))) as ->.
    { rewrite !map_map. reflexivity. }
    unfold shown_bar. rewrite stored_numeric; [reflexivity | |].
    + apply Forall_map. exact Hnum.
    + apply in_map_iff. exists c'. now split.
Qed.

Lemma update_crypto_empty :
  (exists e, http_json w log crypto_url crypto_params = Raise e)
  \/ http_json w log crypto_url crypto_params = Ok (JArr []) ->
  value (update_crypto rt n) w log = Ok go.Figure_.
Proof.
  intros H. unfold value, update_crypto, bind. rewrite fetch_crypto_data_run.
  destruct H as [[e ->] | ->]; reflexivity.
Qed.

(** The figure of a response of coins: the bars of the coins, split into
    traces by name. *)
Lemma update_crypto_coins (c : string * json * list (string * json))
    (coins : list (string * json * list (string * json))) :
  http_json w log crypto_url crypto_params = Ok (JArr (map coin_of (c :: coins))) ->
  Forall (fun c' => numeric (snd (fst c')) = true) (c :: coins) ->
  exists fig,
    update_crypto rt n w log = (Ok fig, (log ++ [Get crypto_url crypto_params])%list)
    /\ go.data fig
       = px.by_name (map (fun c' => (fst (fst c'), shown_bar (c :: coins) c')) (c :: coins))
    /\ go.chart_type fig = Some go.Bars
    /\ go.title fig = Some "Top Cryptos (USD)"
    /\ go.texttemplate fig = Some "$%{text}"
    /\ go.textposition fig = Some "outside".
Proof.
  intros H Hnum. unfold update_crypto, bind. rewrite fetch_crypto_data_run, H.
  cbn [rbind].
  destruct (DataFrame_of_coins c coins Hnum) as (df & -> & -> & Hcn & Hcp & Hrows).
  unfold px.bar, px.plot_by, px.plot. cbn [forallb]. rewrite Hcn, Hcp.
  cbn [andb rbind]. rewrite Hrows. unfold px.traces.
  rewrite map_map. cbn [fst].
  rewrite <- (map_map (fun c' => fst (fst c')) JStr), strings_names.
  rewrite map_map. cbn [snd].
  rewrite combine_maps. unfold lift, ret. cbn.
  eexists. split; [reflexivity|]. cbn. repeat split.
Qed.

(** A frame that has rows but no [name] column makes the callback
    raise. *)
Lemma update_crypto_no_name (body : json) (df : pd.DataFrame (list (string * json))) :
  http_json w log crypto_url crypto_params = Ok body ->
  pd.DataFrame_of rt body = Ok df ->
  pd.empty df = false -> px.has_column df "name" = false ->
  value (update_crypto rt n) w log = Raise ValueError.
Proof.
  intros H Hdf He Hc. unfold value, update_crypto, bind.
  rewrite fetch_crypto_data_run, H. cbn [rbind]. rewrite Hdf, He.
  unfold px.bar, px.plot_by, px.plot. cbn [forallb]. now rewrite Hc.
Qed.

End Crypto.

Lemma shown_bars_as_received (coins : list (string * json * list (string * json))) :
  forallb is_int (map (fun c => snd (fst c)) coins) = true ->
  map (shown_bar coins) coins = map bar_of coins.
Proof.
  intros H. apply map_ext. intros c. unfold shown_bar, shown_price. now rewrite H.
Qed.

Lemma shown_bars_nonnegative (coins : list (string * json * list (string * json))) :
  Forall (fun c => nonnegative (snd (fst c)) = true) coins ->
  Forall (fun bar => nonnegative (snd bar) = true) (map (shown_bar coins) coins).
Proof.
  intros H. apply Forall_map. eapply Forall_impl; [|exact H].
  intros c Hc. unfold shown_bar, shown_price. cbn [snd].
  destruct (forallb _ _); [exact Hc | now apply nonnegative_to_float64].
Qed.




(** ** Requests performed by the clients *)

(** X1. Each of the four single-call clients performs exactly one request,
    the same whatever the answer, and [fetch_market_caps] performs none;
    the log of earlier requests is kept. *)
Theorem clients_request_once (rt : Runtime) (w : World) (log : list request) :
  (forall ticker,
      performed (fetch_stock_data ticker) w log
      = (log ++ [History ticker "1d" "5m"])%list)
  /\ (forall country,
      performed (fetch_covid_data country) w log
      = (log ++ [Get (covid_url country) []])%list)
  /\ performed (fetch_crypto_data rt) w log
     = (log ++ [Get crypto_url crypto_params])%list
  /\ performed fetch_tech_news w log = (log ++ [Get news_url []])%list
  /\ performed fetch_market_caps w log = log.
Proof.
  unfold performed. repeat split.
  - intros ticker. now rewrite fetch_stock_data_run.
  - intros country. now rewrite fetch_covid_data_run.
  - now rewrite fetch_crypto_data_run.
  - now rewrite fetch_tech_news_run.
Qed.

(** ** The weather client and panel *)

Section WeatherPanel.

Variables (rt : Runtime) (w : World) (log : list request).
Variables (n_clicks : option Z) (n_intervals : Z) (city : string).

(** Only the first result of the geocoding body is read. *)
Lemma coordinates_first (geo first : json) (others : list json) (lat lon : json) :
  getitem geo "results" = Ok (JArr (first :: others)) ->
  getitem first "latitude" = Ok lat -> getitem first "longitude" = Ok lon ->
  coordinates geo = Ok (lat, lon).
Proof.
  intros Hr Hlat Hlon. unfold coordinates. rewrite Hr. cbn. now rewrite Hlat, Hlon.
Qed.

Lemma update_weather_run :
  value (update_weather rt n_clicks n_intervals city) w log =
  rbind (value (fetch_weather city) w log) (fun data =>
    if truthy data then
      rbind (getitem data "temperature") (fun temperature =>
      rbind (getitem data "windspeed") (fun windspeed =>
      rbind (getitem data "time") (fun time =>
      Ok (html.Div
            [html.P ("Temperature: " ++ format_str rt temperature ++ "°C") None;
             html.P ("Windspeed: " ++ format_str rt windspeed ++ " m/s") None;
             html.P ("Time: " ++ format_str rt time) None] None))))
    else Ok (html.P "⚠️ No weather data available." (Some "warning"))).
Proof.
  unfold value, update_weather, bind.
  destruct (fetch_weather city w log) as [[data|e] log']; cbn; [|reflexivity].
  destruct (truthy data); reflexivity.
Qed.

Lemma update_weather_performed :
  performed (update_weather rt n_clicks n_intervals city) w log
  = performed (fetch_weather city) w log.
Proof.
  unfold performed, update_weather, bind.
  destruct (fetch_weather city w log) as [[data|e] log']; cbn; [|reflexivity].
  destruct (truthy data); reflexivity.
Qed.

Lemma fetch_weather_value :
  value (fetch_weather city) w log =
  Ok match rbind (http_json w log (geocoding_url city) []) coordinates with
     | Raise _ => JNull
     | Ok (lat, lon) =>
         match current_weather
                 (http_json w (log ++ [Get (geocoding_url city) []])%list
                            (forecast_url lat lon) []) with
         | Ok conditions => conditions
         | Raise _ => JNull
         end
     end.
Proof.
  unfold value. rewrite fetch_weather_run.
  destruct (rbind _ coordinates) as [[lat lon]|e]; reflexivity.
Qed.

End WeatherPanel.

(** X2. When the geocoding body has a first result with both coordinates,
    [fetch_weather] performs the geocoding request and then one forecast
    request at exactly those coordinates (further results are ignored), and
    returns the [current_weather] of the forecast body, or None when the
    forecast call fails. *)
Theorem fetch_weather_found (w : World) (log : list request) (city : string)
    (geo first : json) (others : list json) (lat lon : json) :
  http_json w log (geocoding_url city) [] = Ok geo ->
  getitem geo "results" = Ok (JArr (first :: others)) ->
  getitem first "latitude" = Ok lat -> getitem first "longitude" = Ok lon ->
  performed (fetch_weather city) w log
  = (log ++ [Get (geocoding_url city) []; Get (forecast_url lat lon) []])%list
  /\ value (fetch_weather city) w log
     = Ok match current_weather
                  (http_json w (log ++ [Get (geocoding_url city) []])%list
                             (forecast_url lat lon) []) with
          | Ok conditions => conditions
          | Raise _ => JNull
          end.
Proof.
  intros Hgeo Hr Hlat Hlon.
  pose proof (coordinates_first geo first others lat lon Hr Hlat Hlon) as Hc.
  split.
  - unfold performed. rewrite fetch_weather_run, Hgeo. cbn [rbind]. rewrite Hc.
    cbn [snd]. now rewrite <- app_assoc.
  - rewrite fetch_weather_value, Hgeo. cbn [rbind]. now rewrite Hc.
Qed.

Lemma fetch_weather_found_delhi :
  performed (fetch_weather "New Delhi")
            (two_step (Ok delhi_geo) (Ok (JObj [("current_weather", delhi_now)]))) []
  = [Get (geocoding_url "New Delhi") []; Get (forecast_url (JInt 28) (JInt 77)) []]
  /\ value (fetch_weather "New Delhi")
           (two_step (Ok delhi_geo) (Ok (JObj [("current_weather", delhi_now)]))) []
     = Ok delhi_now.
Proof.
  apply (fetch_weather_found
           (two_step (Ok delhi_geo) (Ok (JObj [("current_weather", delhi_now)]))) []
           "New Delhi" delhi_geo
           (JObj [("name", JStr "Delhi"); ("latitude", JInt 28); ("longitude", JInt 77)])
           [] (JInt 28) (JInt 77)); reflexivity.
Defined.

(** X3. The weather panel shows its warning whenever the fetch has nothing
    to show: the geocoding step fails, the forecast step fails, or the
    forecast's [current_weather] is a falsy value such as null or an empty
    record. *)
Theorem update_weather_warning (rt : Runtime) (w : World) (log : list request)
    (n_clicks : option Z) (n_intervals : Z) (city : string) :
  (exists e, rbind (http_json w log (geocoding_url city) []) coordinates = Raise e)
  \/ (exists lat lon,
        rbind (http_json w log (geocoding_url city) []) coordinates = Ok (lat, lon)
        /\ ((exists e,
               current_weather
                 (http_json w (log ++ [Get (geocoding_url city) []])%list
                            (forecast_url lat lon) []) = Raise e)
            \/ (exists conditions,
                  current_weather
                    (http_json w (log ++ [Get (geocoding_url city) []])%list
                               (forecast_url lat lon) []) = Ok conditions
                  /\ truthy conditions = false))) ->
  value (update_weather rt n_clicks n_intervals city) w log
  = Ok (html.P "⚠️ No weather data available." (Some "warning")).
Proof.
  intros H. rewrite update_weather_run, fetch_weather_value.
  destruct H as [[e ->] | (lat & lon & -> & [[e ->] | (c & -> & Hc)])]; cbn;
    [reflexivity | reflexivity | now rewrite Hc].
Qed.

Lemma update_weather_warning_null :
  value (update_weather plain_runtime None 0 "New Delhi")
        (two_step (Ok delhi_geo) (Ok (JObj [("current_weather", JNull)]))) []
  = Ok (html.P "⚠️ No weather data available." (Some "warning")).
Proof.
  apply (update_weather_warning plain_runtime
           (two_step (Ok delhi_geo) (Ok (JObj [("current_weather", JNull)]))) []
           None 0 "New Delhi").
  right. exists (JInt 28), (JInt 77). split; [reflexivity|].
  right. exists JNull. split; reflexivity.
Defined.

(** X4. For a forecast whose [current_weather] record has a temperature, a
    wind speed and a time, the weather panel shows the three lines
    "Temperature: T°C", "Windspeed: W m/s" and "Time: t", each value as
    [str] prints it, after exactly the geocoding and the forecast request. *)
Theorem update_weather_shown (rt : Runtime) (w : World) (log : list request)
    (n_clicks : option Z) (n_intervals : Z) (city : string)
    (lat lon : json) (fields : list (string * json)) (temperature windspeed time : json) :
  rbind (http_json w log (geocoding_url city) []) coordinates = Ok (lat, lon) ->
  current_weather
    (http_json w (log ++ [Get (geocoding_url city) []])%list (forecast_url lat lon) [])
  = Ok (JObj fields) ->
  lookup "temperature" fields = Some temperature ->
  lookup "windspeed" fields = Some windspeed ->
  lookup "time" fields = Some time ->
  value (update_weather rt n_clicks n_intervals city) w log
  = Ok (html.Div
          [html.P ("Temperature: " ++ format_str rt temperature ++ "°C") None;
           html.P ("Windspeed: " ++ format_str rt windspeed ++ " m/s") None;
           html.P ("Time: " ++ format_str rt time) None] None)
  /\ performed (update_weather rt n_clicks n_intervals city) w log
     = (log ++ [Get (geocoding_url city) []; Get (forecast_url lat lon) []])%list.
Proof.
  intros Hc Hw Ht Hs Htime. split.
  - rewrite update_weather_run, fetch_weather_value, Hc, Hw. cbn [rbind].
    assert (truthy (JObj fields) = true) as ->
      by (destruct fields; [discriminate | reflexivity]).
    unfold getitem. now rewrite Ht, Hs, Htime.
  - rewrite update_weather_performed. unfold performed.
    rewrite fetch_weather_run, Hc. cbn [snd]. now rewrite <- app_assoc.
Qed.

Lemma update_weather_shown_delhi :
  value (update_weather plain_runtime None 0 "New Delhi")
        (two_step (Ok delhi_geo) (Ok (JObj [("current_weather", delhi_now)]))) []
  = Ok (html.Div [html.P "Temperature: 31°C" None;
                  html.P "Windspeed: 7 m/s" None;
                  html.P "Time: 2025-06-01T12:00" None] None)
  /\ performed (update_weather plain_runtime None 0 "New Delhi")
               (two_step (Ok delhi_geo) (Ok (JObj [("current_weather", delhi_now)]))) []
     = [Get (geocoding_url "New Delhi") []; Get (forecast_url (JInt 28) (JInt 77)) []].
Proof.
  apply (update_weather_shown plain_runtime
           (two_step (Ok delhi_geo) (Ok (JObj [("current_weather", delhi_now)]))) []
           None 0 "New Delhi" (JInt 28) (JInt 77)
           [("temperature", JInt 31); ("windspeed", JInt 7);
            ("time", JStr "2025-06-01T12:00")]
           (JInt 31) (JInt 7) (JStr "2025-06-01T12:00")); reflexivity.
Defined.

(** X5. Current conditions that are truthy but not a record with the three
    keys make the weather callback raise: TypeError when they are not a
    record, KeyError for the first of temperature, windspeed and time that
    is missing. *)
Theorem update_weather_raises (rt : Runtime) (w : World) (log : list request)
    (n_clicks : option Z) (n_intervals : Z) (city : string) (conditions : json) :
  value (fetch_weather city) w log = Ok conditions ->
  truthy conditions = true ->
  ((forall fields, conditions <> JObj fields) ->
   value (update_weather rt n_clicks n_intervals city) w log = Raise TypeError)
  /\ (forall fields,
        conditions = JObj fields -> lookup "temperature" fields = None ->
        value (update_weather rt n_clicks n_intervals city) w log
        = Raise (KeyError "temperature"))
  /\ (forall fields,
        conditions = JObj fields -> lookup "temperature" fields <> None ->
        lookup "windspeed" fields = None ->
        value (update_weather rt n_clicks n_intervals city) w log
        = Raise (KeyError "windspeed"))
  /\ (forall fields,
        conditions = JObj fields -> lookup "temperature" fields <> None ->
        lookup "windspeed" fields <> None -> lookup "time" fields = None ->
        value (update_weather rt n_clicks n_intervals city) w log
        = Raise (KeyError "time")).
Proof.
  intros Hv Ht. rewrite update_weather_run, Hv. cbn [rbind]. rewrite Ht.
  split; [|split; [|split]].
  - intros Hn. destruct conditions; try reflexivity. now destruct (Hn fields).
  - intros fields -> H. unfold getitem. now rewrite H.
  - intros fields -> H1 H2. unfold getitem.
    destruct (lookup "temperature" fields); [|congruence]. cbn. now rewrite H2.
  - intros fields -> H1 H2 H3. unfold getitem.
    destruct (lookup "temperature" fields); [|congruence].
    destruct (lookup "windspeed" fields); [|congruence]. cbn. now rewrite H3.
Qed.

Lemma update_weather_raises_partial :
  value (update_weather plain_runtime None 0 "New Delhi")
        (two_step (Ok delhi_geo)
                  (Ok (JObj [("current_weather", JObj [("temperature", JInt 31)])]))) []
  = Raise (KeyError "windspeed").
Proof.
  destruct (update_weather_raises plain_runtime
              (two_step (Ok delhi_geo)
                        (Ok (JObj [("current_weather", JObj [("temperature", JInt 31)])])))
              [] None 0 "New Delhi" (JObj [("temperature", JInt 31)])
              eq_refl eq_refl) as (_ & _ & H & _).
  apply (H [("temperature", JInt 31)]); [reflexivity | discriminate | reflexivity].
Defined.

(** ** The market-cap and equity figures *)

(** X6. [update_marketcap] never raises and performs no request: both
    columns it plots exist, and the figure is the bar chart of the eight
    companies, tallest first, whatever the tick count and the world. *)
Theorem update_marketcap_bars (rt : Runtime) (w : World) (log : list request) (n : Z) :
  exists fig marker,
    update_marketcap rt n w log = (Ok (fig, marker), log)
    /\ go.chart_type fig = Some go.Bars
    /\ go.data fig = map (fun row => (JStr (fst row), JFloat (snd row))) market_caps_sorted
    /\ go.title fig = None /\ go.template fig = Some "plotly_dark"
    /\ marker_line_color marker = "#00ffff".
Proof.
  do 2 eexists. split; [vm_compute; reflexivity|]. cbn. repeat split.
Qed.

(** X7. [update_stock] never raises and performs exactly one price query.
    Its figure plots every row received, in order, Datetime against Close,
    under the title "{ticker} Live Price"; with no rows (or a failed query)
    the figure has no points and the title "No Stock Data Found". *)
Theorem update_stock_figure (w : World) (log : list request)
    (n_clicks : option Z) (n_intervals : Z) (ticker : string) :
  exists fig info,
    update_stock n_clicks n_intervals ticker w log
    = (Ok (fig, info), (log ++ [History ticker "1d" "5m"])%list)
    /\ go.template fig = Some "plotly_dark"
    /\ match yf_history w log ticker "1d" "5m" with
       | Ok (bar :: bars) =>
           go.data fig = map (fun b => (JStr (Datetime b), JFloat (Close b))) (bar :: bars)
           /\ go.title fig = Some (ticker ++ " Live Price")
           /\ go.chart_type fig = Some go.Line
           /\ go.margin fig = Some (20, 20, 40, 20)
       | _ => fig = no_stock_figure /\ info = "No data for " ++ ticker
       end.
Proof.
  unfold update_stock, bind. rewrite fetch_stock_data_run.
  destruct (yf_history w log ticker "1d" "5m") as [[|bar bars]|e].
  - do 2 eexists. split; [reflexivity|]. repeat split.
  - assert (exists latest, pd.iloc_last (pd.reset_index (bar :: bars)) = Ok latest)
      as [latest Hl].
    { unfold pd.iloc_last. cbn [pd.reset_index pd.rows].
      destruct (rev (bar :: bars)) eqn:E; [|eauto].
      apply (f_equal (@List.length _)) in E. rewrite length_rev in E. discriminate. }
    cbn -[pd.iloc_last]. rewrite Hl. cbn.
    do 2 eexists. split; [reflexivity|]. repeat split.
  - do 2 eexists. split; [reflexivity|]. repeat split.
Qed.

Lemma round_half_even_tie (n d : N) :
  (0 < d)%N ->
  (2 * n = 2 * (round_half_even n d * d) + d
   \/ 2 * n + d = 2 * (round_half_even n d * d))%N ->
  N.even (round_half_even n d) = true.
Proof.
  intros Hd. unfold round_half_even.
  pose proof (N.div_mod n d ltac:(lia)) as Hdm.
  pose proof (N.mod_lt n d ltac:(lia)) as Hlt.
  set (q := (n / d)%N) in *. set (r := (n mod d)%N) in *.
  destruct (N.compare_spec (2 * r) d) as [H|H|H]; intros Htie.
  - destruct (N.even q) eqn:E; [exact E|].
    replace (q + 1)%N with (N.succ q) by lia.
    now rewrite N.even_succ, <- N.negb_even, E.
  - exfalso. nia.
  - exfalso. nia.
Qed.

(** X8. The price in the equity panel's text is the last close rounded to
    the nearest hundredth, a tie going to the even hundredth: for a close
    [m * 2^e] the text is the sign, then [h / 100], a point and the two
    digits of [h mod 100], where [h] is exactly [100 * m * 2^e] when that
    is an integer and otherwise differs from it by at most one half. *)
Theorem price_rounded_to_cent (w : World) (log : list request)
    (n_clicks : option Z) (n_intervals : Z) (ticker : string)
    (earlier : list Bar) (time : string) (s : bool) (m : positive) (e : Z) :
  yf_history w log ticker "1d" "5m"
  = Ok (earlier ++ [mkBar time (S754_finite s m e)])%list ->
  exists fig h,
    value (update_stock n_clicks n_intervals ticker) w log
    = Ok (fig, "Last Updated: " ++ time ++ " | Price: $"
               ++ (if s then "-" else "") ++ decimal (h / 100) ++ "."
               ++ decimal (h mod 100 / 10) ++ decimal (h mod 10))
    /\ (0 <= e -> h = (Npos m * 2 ^ Z.to_N e * 100)%N)
    /\ (e < 0 ->
        let d := (2 ^ Z.to_N (- e))%N in
        (2 * (h * d) <= 2 * (Npos m * 100) + d
         /\ 2 * (Npos m * 100) <= 2 * (h * d) + d
         /\ (2 * (Npos m * 100) = 2 * (h * d) + d
             \/ 2 * (Npos m * 100) + d = 2 * (h * d) -> N.even h = true))%N).
Proof.
  intros H.
  destruct (update_stock_latest w log n_clicks n_intervals ticker earlier _ H)
    as (fig & Hv & _).
  exists fig, (hundredths m e). split; [exact Hv|].
  split.
  - intros He. destruct e as [|p|p]; [cbn; lia | reflexivity | lia].
  - intros He d. destruct e as [|p|p]; try lia. subst d.
    change (Z.to_N (- Z.neg p)) with (N.pos p). unfold hundredths.
    assert (0 < 2 ^ N.pos p)%N as Hd.
    { apply N.neq_0_lt_0, N.pow_nonzero. discriminate. }
    pose proof (round_half_even_nearest (N.pos m * 100) (2 ^ N.pos p) Hd) as [H1 H2].
    split; [exact H1|]. split; [exact H2|].
    apply round_half_even_tie. exact Hd.
Qed.

Lemma price_rounded_to_cent_example :
  exists fig,
    value (update_stock None 0 "AAPL")
          (mock (Raise ValueError)
                (Ok [mkBar "2025-01-02 15:55:00-05:00"
                           (S754_finite false 6023564501608038 (-51))])) []
    = Ok (fig, "Last Updated: 2025-01-02 15:55:00-05:00 | Price: $2.67").
Proof.
  destruct (price_rounded_to_cent
              (mock (Raise ValueError)
                    (Ok [mkBar "2025-01-02 15:55:00-05:00"
                               (S754_finite false 6023564501608038 (-51))])) []
              None 0 "AAPL" [] "2025-01-02 15:55:00-05:00"
              false 6023564501608038 (-51) eq_refl) as (fig & h & Hv & _ & Hh).
  exists fig. rewrite Hv. do 2 f_equal.
  assert (h = 267%N) as ->; [|reflexivity].
  specialize (Hh eq_refl). cbv zeta in Hh.
  change (2 ^ Z.to_N (- -51))%N with 2251799813685248%N in Hh.
  change (N.pos 6023564501608038 * 100)%N with 602356450160803800%N in Hh. lia.
Defined.

(** ** More of the pandemic panel *)

(** X9. [update_covid] shows its warning exactly for a failed request or a
    falsy body (null, an empty record, an empty list, zero, the empty
    string), and in every case performs the one request of its client. *)
Theorem update_covid_warning (rt : Runtime) (w : World) (log : list request)
    (n_clicks : option Z) (n_intervals : Z) (country : string) :
  (((exists e, http_json w log (covid_url country) [] = Raise e)
    \/ (exists data, http_json w log (covid_url country) [] = Ok data
                     /\ truthy data = false))
   <-> value (update_covid rt n_clicks n_intervals country) w log = Ok no_covid_data)
  /\ performed (update_covid rt n_clicks n_intervals country) w log
     = (log ++ [Get (covid_url country) []])%list.
Proof.
  split.
  - split; [apply update_covid_no_data|].
    rewrite update_covid_run. cbn zeta.
    destruct (http_json w log (covid_url country) []) as [data|e]; [|eauto].
    destruct (truthy data) eqn:Ht; [|eauto]. intros H. exfalso.
    destruct (getitem data "country"); [|discriminate]. cbn in H.
    destruct (rbind (getitem data "cases") _); [|discriminate]. cbn in H.
    destruct (rbind (getitem data "active") _); [|discriminate]. cbn in H.
    destruct (rbind (getitem data "recovered") _); [|discriminate]. cbn in H.
    destruct (rbind (getitem data "deaths") _); discriminate.
  - unfold performed, update_covid, bind. rewrite fetch_covid_data_run.
    destruct (negb _); [reflexivity|]. unfold lift. reflexivity.
Qed.

Lemma update_covid_warning_empty_record :
  value (update_covid plain_runtime None 0 "India") (mock (Ok (JObj [])) (Ok [])) []
  = Ok no_covid_data.
Proof.
  destruct (update_covid_warning plain_runtime (mock (Ok (JObj [])) (Ok [])) []
              None 0 "India") as ((H & _) & _).
  apply H. right. exists (JObj []). split; reflexivity.
Defined.

(** X10. A truthy body that is not a stats record makes [update_covid]
    raise: TypeError when the body is not a record (a non-empty list, as
    the endpoint sends for several countries), and, with the country
    present, ValueError when the cases counter is a string and TypeError
    when it is null. *)
Theorem update_covid_bad_body (rt : Runtime) (w : World) (log : list request)
    (n_clicks : option Z) (n_intervals : Z) (country : string) (body : json) :
  http_json w log (covid_url country) [] = Ok body ->
  truthy body = true ->
  ((forall fields, body <> JObj fields) ->
   value (update_covid rt n_clicks n_intervals country) w log = Raise TypeError)
  /\ (forall fields c text,
        body = JObj fields -> lookup "country" fields = Some c ->
        lookup "cases" fields = Some (JStr text) ->
        value (update_covid rt n_clicks n_intervals country) w log = Raise ValueError)
  /\ (forall fields c,
        body = JObj fields -> lookup "country" fields = Some c ->
        lookup "cases" fields = Some JNull ->
        value (update_covid rt n_clicks n_intervals country) w log = Raise TypeError).
Proof.
  intros H Ht. rewrite update_covid_run, H. cbn zeta. rewrite Ht.
  split; [|split].
  - intros Hn. destruct body; try reflexivity. now destruct (Hn fields).
  - intros fields c text -> Hc Hcases. unfold getitem. now rewrite Hc, Hcases.
  - intros fields c -> Hc Hcases. unfold getitem. now rewrite Hc, Hcases.
Qed.

Lemma update_covid_bad_body_list :
  value (update_covid plain_runtime None 0 "India,Nepal")
        (mock (Ok (JArr [india_stats; india_stats])) (Ok [])) []
  = Raise TypeError.
Proof.
  destruct (update_covid_bad_body plain_runtime
              (mock (Ok (JArr [india_stats; india_stats])) (Ok [])) []
              None 0 "India,Nepal" (JArr [india_stats; india_stats])
              eq_refl eq_refl) as (H & _).
  apply H. discriminate.
Defined.

(** X11. For a stats record with non-negative integer counters the four
    counter lines carry the numbers received: each is its label followed
    by text that, with the commas taken out, is the decimal numeral of the
    counter. *)
Theorem update_covid_numbers (rt : Runtime) (w : World) (log : list request)
    (n_clicks : option Z) (n_intervals : Z) (country : string)
    (fields : list (string * json)) (c : json) (cases active recovered deaths : Z) :
  http_json w log (covid_url country) [] = Ok (JObj fields) ->
  lookup "country" fields = Some c ->
  lookup "cases" fields = Some (JInt cases) ->
  lookup "active" fields = Some (JInt active) ->
  lookup "recovered" fields = Some (JInt recovered) ->
  lookup "deaths" fields = Some (JInt deaths) ->
  0 <= cases -> 0 <= active -> 0 <= recovered -> 0 <= deaths ->
  exists t1 t2 t3 t4,
    value (update_covid rt n_clicks n_intervals country) w log
    = Ok (html.Div [html.P ("Country: " ++ format_str rt c) None;
                    html.P ("Cases: " ++ t1) None;
                    html.P ("Active: " ++ t2) None;
                    html.P ("Recovered: " ++ t3) None;
                    html.P ("Deaths: " ++ t4) None] None)
    /\ strip_commas t1 = decimal (Z.to_N cases)
    /\ strip_commas t2 = decimal (Z.to_N active)
    /\ strip_commas t3 = decimal (Z.to_N recovered)
    /\ strip_commas t4 = decimal (Z.to_N deaths).
Proof.
  intros H Hc H1 H2 H3 H4 P1 P2 P3 P4.
  exists (format_comma_int cases), (format_comma_int active),
    (format_comma_int recovered), (format_comma_int deaths).
  split.
  - now apply (update_covid_record rt w log n_clicks n_intervals country fields).
  - repeat split; now apply format_comma_int_strip.
Qed.

Lemma update_covid_numbers_million :
  exists t1 t2 t3 t4,
    value (update_covid plain_runtime None 0 "India")
          (mock (Ok (JObj [("country", JStr "India"); ("cases", JInt 45035393);
                           ("active", JInt 0); ("recovered", JInt 44501823);
                           ("deaths", JInt 533570)])) (Ok [])) []
    = Ok (html.Div [html.P "Country: India" None;
                    html.P ("Cases: " ++ t1) None;
                    html.P ("Active: " ++ t2) None;
                    html.P ("Recovered: " ++ t3) None;
                    html.P ("Deaths: " ++ t4) None] None)
    /\ strip_commas t1 = "45035393"
    /\ strip_commas t2 = "0"
    /\ strip_commas t3 = "44501823"
    /\ strip_commas t4 = "533570".
Proof.
  apply (update_covid_numbers plain_runtime
           (mock (Ok (JObj [("country", JStr "India"); ("cases", JInt 45035393);
                            ("active", JInt 0); ("recovered", JInt 44501823);
                            ("deaths", JInt 533570)])) (Ok [])) []
           None 0 "India"
           [("country", JStr "India"); ("cases", JInt 45035393);
            ("active", JInt 0); ("recovered", JInt 44501823);
            ("deaths", JInt 533570)]
           (JStr "India") 45035393 0 44501823 533570);
    try reflexivity; lia.
Defined.

(** ** More of the news panel *)

Lemma comprehension_all_ok {A B : Type} (f : A -> result B) (items : list A)
    (bs : list B) :
  Forall2 (fun a b => f a = Ok b) items bs -> comprehension f items = Ok bs.
Proof.
  induction 1 as [|a b items bs Ha _ IH]; cbn; [reflexivity|].
  now rewrite Ha, IH.
Qed.

Lemma comprehension_all_raise {A B : Type} (f : A -> result B) (items : list A) :
  Forall (fun a => exists e, f a = Raise e) items ->
  comprehension f items = Ok [] \/ exists e, comprehension f items = Raise e.
Proof.
  intros H. destruct H as [|a items [e Ha] _]; cbn; [now left|].
  right. rewrite Ha. cbn. eauto.
Qed.

(** X12. When every hit is a record with a title and a url, whatever their
    values (a url may be null), [fetch_tech_news] returns the (title, url)
    pairs of all hits in response order, and the panel shows one news item
    per hit in that order, the link opening in a new tab. *)
Theorem news_complete_hits (w : World) (log : list request) (n : Z)
    (data : json) (hits : list json) (news : list (json * json)) :
  http_json w log news_url [] = Ok data ->
  getitem data "hits" = Ok (JArr hits) ->
  Forall2 (fun hit headline =>
             exists fields, hit = JObj fields
                            /\ lookup "title" fields = Some (fst headline)
                            /\ lookup "url" fields = Some (snd headline))
          hits news ->
  value fetch_tech_news w log = Ok news
  /\ (news <> [] ->
      value (update_news n) w log
      = Ok (Many (map (fun headline =>
                         html.Div [html.A (fst headline) (snd headline)
                                          "_blank" "news-link"]
                                  (Some "news-item")) news))).
Proof.
  intros H Hhits Hall.
  assert (value fetch_tech_news w log = Ok news) as Hf.
  { unfold value. rewrite fetch_tech_news_run, H. cbn. unfold headlines.
    rewrite Hhits. cbn.
    rewrite (comprehension_all_ok _ hits news); [reflexivity|].
    eapply Forall2_impl; [|exact Hall]. cbn.
    intros hit [title link] (fields & -> & Ht & Hu). cbn in *.
    now rewrite Ht, Hu. }
  split; [exact Hf|]. intros Hne. rewrite update_news_run, Hf.
  destruct news; [congruence | reflexivity].
Qed.

Lemma news_complete_hits_null_url :
  value (update_news 0)
        (mock (Ok (JObj [("hits", JArr [JObj [("title", JStr "Ask HN"); ("url", JNull)]])]))
              (Ok [])) []
  = Ok (Many [html.Div [html.A (JStr "Ask HN") JNull "_blank" "news-link"]
                       (Some "news-item")]).
Proof.
  destruct (news_complete_hits
              (mock (Ok (JObj [("hits", JArr [JObj [("title", JStr "Ask HN");
                                                    ("url", JNull)]])]))
                    (Ok [])) [] 0
              (JObj [("hits", JArr [JObj [("title", JStr "Ask HN"); ("url", JNull)]])])
              [JObj [("title", JStr "Ask HN"); ("url", JNull)]]
              [(JStr "Ask HN", JNull)] eq_refl eq_refl) as (_ & H).
  - repeat constructor. exists [("title", JStr "Ask HN"); ("url", JNull)].
    repeat split.
  - apply H. discriminate.
Defined.

(** X13. When the response's [hits] is anything but a list (null, a
    number, a string, a record), [fetch_tech_news] returns the empty list
    and the panel shows the "no news" message: nothing of such a response
    is shown. *)
Theorem news_hits_not_a_list (w : World) (log : list request) (n : Z)
    (data hits : json) :
  http_json w log news_url [] = Ok data ->
  getitem data "hits" = Ok hits ->
  (forall items, hits <> JArr items) ->
  value fetch_tech_news w log = Ok []
  /\ value (update_news n) w log
     = Ok (One (html.P "⚠️ No latest news available." (Some "warning"))).
Proof.
  intros H Hhits Hn.
  assert (value fetch_tech_news w log = Ok []) as Hf.
  { unfold value. rewrite fetch_tech_news_run, H. cbn. unfold headlines.
    rewrite Hhits. cbn [rbind fst].
    assert (forall (l : list json),
               Forall (fun a => exists s, a = JStr s) l ->
               match comprehension
                       (fun item => rbind (getitem item "title") (fun title =>
                                    rbind (getitem item "url") (fun url =>
                                    Ok (title, url)))) l with
               | Ok news => news
               | Raise _ => []
               end = []) as Hstr.
    { intros l Hl.
      destruct (comprehension_all_raise
                  (fun item => rbind (getitem item "title") (fun title =>
                               rbind (getitem item "url") (fun url =>
                               Ok (title, url)))) l) as [-> | [e ->]]; trivial.
      eapply Forall_impl; [|exact Hl]. intros a [s ->]. cbn. eauto. }
    destruct hits; cbn [iter rbind]; trivial.
    - f_equal. apply Hstr. apply Forall_forall. intros a Ha.
      apply in_map_iff in Ha as (c & <- & _). eauto.
    - now destruct (Hn items).
    - f_equal. apply Hstr. apply Forall_forall. intros a Ha.
      apply in_map_iff in Ha as (kv & <- & _). eauto. }
  split; [exact Hf|]. now rewrite update_news_run, Hf.
Qed.

Lemma news_hits_not_a_list_record :
  value (update_news 0)
        (mock (Ok (JObj [("hits", JObj [("title", JStr "A"); ("url", JStr "u")])]))
              (Ok [])) []
  = Ok (One (html.P "⚠️ No latest news available." (Some "warning"))).
Proof.
  destruct (news_hits_not_a_list
              (mock (Ok (JObj [("hits", JObj [("title", JStr "A"); ("url", JStr "u")])]))
                    (Ok [])) [] 0
              (JObj [("hits", JObj [("title", JStr "A"); ("url", JStr "u")])])
              (JObj [("title", JStr "A"); ("url", JStr "u")]) eq_refl eq_refl)
    as (_ & H); [discriminate | exact H].
Defined.

(** ** More of the crypto panel *)

Lemma add_keys_only (fields : list (string * json)) (seen : list string) (k : string) :
  In k (fold_left pd.add_key fields seen) -> In k seen \/ In k (map fst fields).
Proof.
  revert seen. induction fields as [|kv fields IH]; cbn; intros seen H; [now left|].
  apply IH in H as [H|H]; [|now right; right].
  unfold pd.add_key in H. destruct (existsb _ seen); [now left|].
  apply in_app_or in H as [H|[H|[]]]; [now left | now right; left].
Qed.

(** Every column is a key of some record. *)
Lemma union_keys_only (recs : list (list (string * json))) (seen : list string)
    (k : string) :
  In k (pd.union_keys seen recs) ->
  In k seen \/ exists fields, In fields recs /\ In k (map fst fields).
Proof.
  revert seen. induction recs as [|r recs IH]; cbn; intros seen H; [now left|].
  apply IH in H as [H|(fields & Hin & Hk)].
  - apply add_keys_only in H as [H|H]; [now left|]. right. exists r. auto.
  - right. exists fields. auto.
Qed.

Lemma lookup_none (k : string) (fields : list (string * json)) :
  lookup k fields = None -> ~ In k (map fst fields).
Proof.
  induction fields as [|[k' v] fields IH]; cbn; [tauto|].
  destruct (String.eqb_spec k k'); [discriminate|].
  intros H [Heq|Hin]; [congruence | now apply IH].
Qed.

Lemma records_objects (recs : list (list (string * json))) :
  pd.records (map JObj recs) = Some recs.
Proof.
  induction recs as [|r recs IH]; cbn; [reflexivity|]. now rewrite IH.
Qed.



(** X15. A markets response that is a list of records none of which has a
    [name] (an error body wrapped in a list, say) is not shown as an empty
    chart: the frame is not empty, [px.bar] finds no name column, and
    [update_crypto] raises ValueError. *)
Theorem crypto_records_without_name (rt : Runtime) (w : World) (log : list request)
    (n : Z) (recs : list (list (string * json))) :
  http_json w log crypto_url crypto_params = Ok (JArr (map JObj recs)) ->
  Forall (fun fields => lookup "name" fields = None) recs ->
  Exists (fun fields => fields <> []) recs ->
  value (update_crypto rt n) w log = Raise ValueError.
Proof.
  intros H Hnone Hsome.
  assert (pd.DataFrame_of rt (JArr (map JObj recs)) = Ok (pd.of_records rt recs))
    as Hdf.
  { unfold pd.DataFrame_of. rewrite records_objects.
    destruct recs; [inversion Hsome | reflexivity]. }
  apply (update_crypto_no_name rt w log n _ _ H Hdf).
  - unfold pd.empty, pd.of_records; cbn [pd.rows pd.columns].
    destruct recs as [|r recs]; [inversion Hsome|]. cbn [map].
    destruct (pd.union_keys [] (r :: recs)) eqn:E; [|reflexivity].
    exfalso. apply Exists_exists in Hsome as (fields & Hin & Hne).
    destruct fields as [|[k v] fields]; [congruence|].
    assert (In k (pd.union_keys [] (r :: recs))) as Hk
      by (apply (union_keys_in _ [] ((k, v) :: fields)); [exact Hin | now left]).
    rewrite E in Hk. destruct Hk.
  - unfold px.has_column, pd.of_records; cbn [pd.columns].
    destruct (existsb _ _) eqn:E; [|reflexivity]. exfalso.
    apply existsb_exists in E as (k & Hk & Heq).
    apply String.eqb_eq in Heq. subst k.
    apply union_keys_only in Hk as [[]|(fields & Hin & Hk)].
    rewrite Forall_forall in Hnone. now apply (lookup_none _ _ (Hnone _ Hin)).
Qed.

Lemma crypto_records_without_name_error :
  value (update_crypto plain_runtime 0)
        (mock (Ok (JArr [JObj [("error", JStr "rate limit exceeded")]])) (Ok [])) []
  = Raise ValueError.
Proof.
  apply (crypto_records_without_name plain_runtime
           (mock (Ok (JArr [JObj [("error", JStr "rate limit exceeded")]])) (Ok [])) [] 0
           [[("error", JStr "rate limit exceeded")]]).
  - reflexivity.
  - repeat constructor.
  - constructor. discriminate.
Defined.

(** ** The page and its callbacks *)

(** X16. The component ids of the page are pairwise distinct, and every
    Output, Input and State of the six callbacks names a component of the
    page that has the property: [figure] on a graph, [children] on a
    container, [n_clicks] on a button, [n_intervals] on a timer and
    [value] on a text field. *)
Theorem callbacks_resolve :
  NoDup (map fst (identified layout))
  /\ Forall (fun cb => Forall resolves (references cb)) callbacks.
Proof.
  split.
  - cbn. repeat (constructor; [cbn; intuition discriminate|]). constructor.
  - repeat constructor; eexists; split; reflexivity.
Qed.

(** X17. No property of the page is written by two callbacks; every
    identified component is used by some callback in its role (graphs and
    containers as outputs, buttons and timers as inputs, text fields as
    state); and each callback function takes one parameter per Input and
    State and returns one value per Output. *)
Theorem callbacks_cover_page :
  NoDup (flat_map outputs callbacks)
  /\ Forall (fun ic => used (fst ic) (role (snd ic)) = true) (identified layout)
  /\ Forall (fun cb =>
               parameters cb = (List.length (inputs cb) + List.length (states cb))%nat
               /\ returned cb = List.length (outputs cb)) callbacks.
Proof.
  split; [|split].
  - cbn. repeat (constructor; [cbn; intuition discriminate|]). constructor.
  - repeat constructor.
  - repeat constructor.
Qed.

Lemma update_stock_performed (w : World) (log : list request)
    (n_clicks : option Z) (n_intervals : Z) (ticker : string) :
  performed (update_stock n_clicks n_intervals ticker) w log
  = (log ++ [History ticker "1d" "5m"])%list.
Proof.
  unfold performed, update_stock, bind. rewrite fetch_stock_data_run.
  destruct (pd.empty _); [reflexivity|]. unfold lift.
  destruct (px.line _ _ _ _ _); [|reflexivity].
  now destruct (pd.iloc_last _).
Qed.

(** X18. A callback performs exactly the requests of its client and none
    of its own, also when it raises: one price query for the equity
    panel, one GET each for the pandemic, crypto and news panels, and for
    the weather panel whatever [fetch_weather] performs. *)
Theorem callbacks_request_footprint (rt : Runtime) (w : World) (log : list request)
    (n_clicks : option Z) (n_intervals : Z) (text : string) :
  performed (update_stock n_clicks n_intervals text) w log
  = (log ++ [History text "1d" "5m"])%list
  /\ performed (update_covid rt n_clicks n_intervals text) w log
     = (log ++ [Get (covid_url text) []])%list
  /\ performed (update_weather rt n_clicks n_intervals text) w log
     = performed (fetch_weather text) w log
  /\ performed (update_crypto rt n_intervals) w log
     = (log ++ [Get crypto_url crypto_params])%list
  /\ performed (update_news n_intervals) w log = (log ++ [Get news_url []])%list.
Proof.
  split; [|split; [|split; [|split]]].
  - apply update_stock_performed.
  - unfold performed, update_covid, bind. rewrite fetch_covid_data_run.
    now destruct (negb _).
  - apply update_weather_performed.
  - unfold performed, update_crypto, bind. rewrite fetch_crypto_data_run.
    destruct (pd.empty _); [reflexivity|]. unfold lift.
    now destruct (px.bar _ _ _ _ _ _ _ _).
  - unfold performed, update_news, bind. rewrite fetch_tech_news_run.
    now destruct (match rbind _ _ with Ok news => news | Raise _ => [] end).
Qed.
